(** * The registered datastore instance ("rdi") of the ORM hook

    A shallow embedding of [lib/build-registered-datastore-instance.js]:
    the structural check of the adapter, the probe of the driver's
    interface layers, and the four datastore methods built on top of
    them ([leaseConnection], [sendStatement], [sendNativeQuery] and
    [transaction]).

    A JavaScript object is a finite map of own properties together with a
    prototype, so that an own-property test ([_.has]) and a property read
    ([adapter.datastores]) can differ as they do in the language;
    the mutable call-options records live in a store indexed by object
    identity, and what a method does to the outside (calling a driver
    helper, calling back with an error) is recorded in a trace.

    Three things are used and not defined by the file: lodash, modelled
    function by function as far as the file uses it; parley, modelled by
    what it does with a handler, an explicit callback and custom methods;
    and [checkAdapterCompatibility] and the four driver helpers, which
    live in other files of the hook: the check is a parameter of the build
    and a call to a helper is an event of the trace. *)

From stdpp Require Import gmap strings list fin_maps.

Local Open Scope string_scope.
Local Open Scope list_scope.

(** ** JavaScript values *)

(** The values this module handles.  An object has own properties
    (enumerable data properties) and a prototype.  [VDict d] is a plain
    dictionary, as an object literal makes it: its own properties are [d]
    and its prototype is the built-in one.  [VDerived own proto] is an
    object with the own properties [own] whose prototype is the value
    [proto], as [Object.create(proto)] or a constructor makes it; its
    properties are its own and, behind them, those of [proto].  A function is
    an opaque callable; the module never calls one itself (the helpers and
    parley do) and never looks inside.  Numbers are the integers. *)
#[warnings="-register-all"]
Inductive value : Type :=
| VUndefined
| VNull
| VBool (b : bool)
| VNum (n : Z)
| VStr (s : string)
| VFun (name : string)
| VDict (d : gmap string value)
| VDerived (own : gmap string value) (proto : value).

Abbreviation dict := (gmap string value).

(** What the language throws while the instance is being built. *)
Inductive thrown : Type :=
| TypeError                                   (* property read on undefined or null *)
| AssertionError (message : string)           (* a failed [assert] *)
| IncompatibleAdapter (reason : string).      (* thrown by checkAdapterCompatibility *)

Inductive outcome (A : Type) : Type :=
| Returned (a : A)
| Threw (t : thrown).
Arguments Returned {A} a.
Arguments Threw {A} t.

(** [!v] is false exactly on the truthy values. *)
Definition truthy (v : value) : bool :=
  match v with
  | VUndefined | VNull => false
  | VBool b => b
  | VNum n => negb (n =? 0)%Z
  | VStr s => negb (String.eqb s "")
  | VFun _ | VDict _ | VDerived _ _ => true
  end.

(** The own properties of a value. *)
Definition ownProperties (v : value) : gmap string value :=
  match v with
  | VDict d => d
  | VDerived own _ => own
  | _ => ∅
  end.

(** The property [k] as found on [v] or, failing that, along its chain of
    prototypes; undefined when the chain ends without it.  The members of
    the built-in prototypes and of the primitives (the [toString] of an
    object, the length of a string) are not modelled: the chain ends where
    they would begin. *)
Fixpoint lookupChain (v : value) (k : string) : value :=
  match v with
  | VDict d => default VUndefined (d !! k)
  | VDerived own proto =>
    match own !! k with
    | Some x => x
    | None => lookupChain proto k
    end
  | _ => VUndefined
  end.

(** [v[k]]: reading a property of undefined or null throws; any other
    value answers with what its prototype chain holds. *)
Definition getProp (v : value) (k : string) : outcome value :=
  match v with
  | VUndefined | VNull => Threw TypeError
  | _ => Returned (lookupChain v k)
  end.

(** [a || b] *)
Definition js_or (a b : value) : value := if truthy a then a else b.

(** ** The lodash functions used *)

Module lodash.

(** [_.has(v, k)] for a plain key: an own-property test, which does not
    look at the prototype. *)
Definition has (v : value) (k : string) : bool :=
  bool_decide (is_Some (ownProperties v !! k)).

(** [_.isObject(v)]: objects and functions. *)
Definition isObject (v : value) : bool :=
  match v with
  | VDict _ | VDerived _ _ | VFun _ => true
  | _ => false
  end.

(** [_.keys(v)]: the own enumerable property names. *)
Definition keys (v : value) : list string :=
  (map_to_list (ownProperties v)).*1.

(** [_.difference(array, values)]: the elements of [array] that are not
    in [values], in the order of [array]. *)
Definition difference (array values : list string) : list string :=
  filter (λ x, x ∉ values) array.

(** [_.extend(object, source)]: every property of [source] is assigned
    onto [object]; the result is the mutated [object]. *)
Definition extend (object source : dict) : dict := source ∪ object.

End lodash.

(** ** Error objects *)

(** An [Error] instance.  [oid] is the identity of the object: two error
    objects are the same object iff they have the same [oid]. *)
Record error : Type := Error {
  oid : nat;
  code : option string;
  message : string;
}.

(** [flaverr(code, err)] sets [err.code] and gives back the same object. *)
Definition flaverr (c : string) (err : error) : error :=
  {| oid := oid err; code := Some c; message := message err |}.

(** ** The world the module runs in *)

Inductive helper : Type :=
| helpLeaseConnection
| helpSendStatement
| helpSendNativeQuery
| helpRunTransaction.

(** A Node-style callback, known by its name. *)
Inductive callback : Type := Callback (name : string).

(** What is observable from the outside.  [CallHelper h l o cb] is the call
    [h(options, done)], where [options] is the record stored at [l], [o] is
    what that record holds at the time of the call and [done] reports to
    [cb].  [CallDone cb err] is the call [done(err)]. *)
Inductive event : Type :=
| CallHelper (h : helper) (optionsRef : nat) (options : dict) (cb : callback)
| CallDone (cb : callback) (err : error).

Record world : Type := World {
  next : nat;                       (* the next unused object identity *)
  heap : gmap nat (gmap string value);  (* the live call-options records *)
  begun : gset nat;                 (* the Deferreds that have begun executing *)
  trace : list event;
}.

(** A small state monad over the world. *)
Definition M (A : Type) : Type := world → A * world.

#[export] Instance M_ret : MRet M := λ A a w, (a, w).
#[export] Instance M_bind : MBind M :=
  λ A B f m w, let '(a, w') := m w in f a w'.

(** A new object identity. *)
Definition fresh : M nat :=
  λ w, (next w, World (S (next w)) (heap w) (begun w) (trace w)).

(** [var options = { ... }]: a new record in the store. *)
Definition newRecord (d : dict) : M nat :=
  l ← fresh;
  (λ w, (l, World (next w) (<[l := d]> (heap w)) (begun w) (trace w))) : M nat.

(** [options.k = v] on the record stored at [l]. *)
Definition setField (l : nat) (k : string) (v : value) : M unit :=
  λ w, (tt, World (next w) (alter (λ d, <[k := v]> d) l (heap w)) (begun w) (trace w)).

(** [_.extend(options, more)] on the record stored at [l]. *)
Definition extendRecord (l : nat) (more : dict) : M unit :=
  λ w, (tt, World (next w) (alter (λ d, lodash.extend d more) l (heap w)) (begun w) (trace w)).

(** What the record stored at [l] holds now. *)
Definition readRecord (l : nat) : M dict :=
  λ w, (default ∅ (heap w !! l), w).

Definition emit (e : event) : M unit :=
  λ w, (tt, World (next w) (heap w) (begun w) (trace w ++ [e])).

(** [new Error(msg)] *)
Definition newError (msg : string) : M error :=
  i ← fresh; mret {| oid := i; code := None; message := msg |}.

#[export] Instance outcome_ret : MRet outcome := λ A a, Returned a.
#[export] Instance outcome_bind : MBind outcome :=
  λ A B f m, match m with Returned a => f a | Threw t => Threw t end.

(** [assert(cond, msg)] *)
Definition assert (cond : bool) (msg : string) : outcome unit :=
  if cond then Returned tt else Threw (AssertionError msg).

(** The double quote and the line feed, for the messages below. *)
Definition dq : string := String (Ascii.ascii_of_nat 34) EmptyString.
Definition nl : string := String (Ascii.ascii_of_nat 10) EmptyString.

(** ** The registered datastore instance *)

(** What [buildRegisteredDatastoreInstance] returns, together with the
    variables of its scope that the four methods close over.  A capability
    variable that was declared and never assigned is [None] (undefined). *)
Record rdi : Type := Rdi {
  internalConfig : value;
  adapter : value;
  datastoreName : string;
  genericDoesNotSupportDatastoreMethodsError : option error;
  isConnectable : option bool;
  isQueryable : option bool;
  isTransactional : option bool;
}.

(** [!flag] for a capability variable. *)
Definition not_flag (flag : option bool) : bool :=
  match flag with
  | Some b => negb b
  | None => true
  end.

Definition GENERIC_UNSUPPORTED_DSM_ERROR_MSG_SUFFIX : string :=
  "" +:+
  "If there is an older/ newer version of this adapter, try updating the semver range for this dependency " +:+
  "in your package.json file.  If you aren't sure, check the repo on GitHub, or contact the adapter's " +:+
  "maintainer.  If you *are* the maintainer of this adapter and need help, visit http://sailsjs.com/support.".

(** The three messages of the structural check. *)
Definition doesNotExposeDatastoresMsg (datastoreName : string) : string :=
  "The adapter used by the " +:+ datastoreName +:+ " datastore does not support " +:+
  "direct access to its datastores (e.g. for leasing connections directly.)  " +:+
  "It needs to expose its internal datastores in order for them to be used " +:+
  "outside the adapter." +:+ nl +:+
  GENERIC_UNSUPPORTED_DSM_ERROR_MSG_SUFFIX.

Definition missingDatastoreReferenceMsg (datastoreName : string) : string :=
  "The adapter used by the " +:+ datastoreName +:+ " datastore does not support " +:+
  "direct access to its datastores (e.g. for leasing connections directly.)  " +:+
  "The adapter's exposed `datastores` dictionary doesn't exist, is invalid, " +:+
  "or is missing the expected reference to this datastore." +:+ nl +:+
  GENERIC_UNSUPPORTED_DSM_ERROR_MSG_SUFFIX.

Definition incompleteDatastoreReferenceMsg (datastoreName : string) : string :=
  "The adapter used by the " +:+ datastoreName +:+ " datastore does not support " +:+
  "direct access to its datastores (e.g. for leasing connections directly.)  " +:+
  "The adapter's exposed `datastores` dictionary contains the expected reference " +:+
  "to this datastore, but that reference is missing one or more mandatory keys " +:+
  "(like `driver`, `manager`, or `config`)." +:+ nl +:+
  GENERIC_UNSUPPORTED_DSM_ERROR_MSG_SUFFIX.

(** Lines 143 to 164: the interface layers a driver implements, from the
    names of its methods, as (isConnectable, isQueryable, isTransactional). *)
Definition interfaceLayers (driverMethodNames : list string) : bool * bool * bool :=
  let isConnectable :=
    bool_decide (length (lodash.difference [
      "createManager";
      "destroyManager";
      "getConnection";
      "releaseConnection"
    ] driverMethodNames) = 0) in
  let isQueryable :=
    isConnectable && bool_decide (length (lodash.difference [
      "sendNativeQuery";
      "compileStatement";
      "parseNativeQueryResult";
      "parseNativeQueryError"
    ] driverMethodNames) = 0) in
  let isTransactional :=
    isQueryable && bool_decide (length (lodash.difference [
      "beginTransaction";
      "commitTransaction";
      "rollbackTransaction"
    ] driverMethodNames) = 0) in
  (isConnectable, isQueryable, isTransactional).

Section Build.

(** [checkAdapterCompatibility(datastoreName, adapter)] lives in another
    file of the hook.  It either returns or throws; [Some reason] is a
    throw. *)
Variable checkAdapterCompatibility : string → value → option string.

(** Lines 60 to 118: whether the adapter supports datastore methods in
    general.  The result is the value of
    [genericDoesNotSupportDatastoreMethodsError]. *)
Definition checkDatastoreAccess (datastoreName : string) (adapter : value)
  : M (outcome (option error)) :=
  if lodash.has adapter "datastores" then
    e ← newError (doesNotExposeDatastoresMsg datastoreName);
    mret (Returned (Some (flaverr "E_NOT_SUPPORTED" e)))
  else
    match (datastores ← getProp adapter "datastores";
           getProp datastores datastoreName) with
    | Threw t => mret (Threw t)
    | Returned adapterDSEntry =>
      if negb (truthy adapterDSEntry) then
        e ← newError (missingDatastoreReferenceMsg datastoreName);
        mret (Returned (Some (flaverr "E_NOT_SUPPORTED" e)))
      else
        if negb (lodash.has adapterDSEntry "manager")
           || negb (lodash.has adapterDSEntry "driver")
           || negb (lodash.has adapterDSEntry "config") then
          e ← newError (incompleteDatastoreReferenceMsg datastoreName);
          mret (Returned (Some (flaverr "E_NOT_SUPPORTED" e)))
        else
          mret (Returned None)
    end.

(** Lines 133 to 166: the three capability variables. *)
Definition probeDriver (datastoreName : string) (adapter : value)
    (genericDoesNotSupportDatastoreMethodsError : option error)
  : outcome (option bool * option bool * option bool) :=
  match genericDoesNotSupportDatastoreMethodsError with
  | Some _ => Returned (None, None, None)
  | None =>
    datastores ← getProp adapter "datastores";
    entry ← getProp datastores datastoreName;
    driver ← getProp entry "driver";
    assert (lodash.isObject driver)
      "At this point in the code, we should have already verified that the driver is a dictionary-- but it is not!";;
    let driverMethodNames := lodash.keys driver in
    let '(c, q, t) := interfaceLayers driverMethodNames in
    Returned (Some c, Some q, Some t)
  end.

Definition buildRegisteredDatastoreInstance
    (datastoreName : string) (normalizedDatastoreConfig : value) (adapter : value)
  : M (outcome rdi) :=
  match getProp adapter "adapterApiVersion" with
  | Threw t => mret (Threw t)
  | Returned version =>
    let adapterApiVersion := js_or version (VNum 0) in
    match checkAdapterCompatibility datastoreName adapter with
    | Some reason => mret (Threw (IncompatibleAdapter reason))
    | None =>
      r ← checkDatastoreAccess datastoreName adapter;
      match r with
      | Threw t => mret (Threw t)
      | Returned genericErr =>
        match probeDriver datastoreName adapter genericErr with
        | Threw t => mret (Threw t)
        | Returned (c, q, t) =>
          mret (Returned {|
            internalConfig := normalizedDatastoreConfig;
            adapter := adapter;
            datastoreName := datastoreName;
            genericDoesNotSupportDatastoreMethodsError := genericErr;
            isConnectable := c;
            isQueryable := q;
            isTransactional := t;
          |})
        end
      end
    end
  end.

End Build.

(** ** parley *)

(** A custom method of a Deferred: it receives [this] (the identity of the
    Deferred it is called on) and one argument, and returns the identity of
    the object it returns. *)
Definition customMethod : Type := nat → value → M nat.

Record deferred : Type := Deferred {
  d_id : nat;
  d_handleExec : callback → M unit;
  d_customMethods : list (string * customMethod);
}.

(** [parley(handleExec, explicitCb, customMethods)]: with an explicit
    callback the handler runs right away and nothing is returned; without
    one a Deferred carrying the custom methods is returned and nothing has
    run yet. *)
Definition parley (handleExec : callback → M unit) (explicitCb : option callback)
    (customMethods : list (string * customMethod)) : M (option deferred) :=
  match explicitCb with
  | Some cb => handleExec cb;; mret None
  | None =>
    i ← fresh;
    mret (Some {| d_id := i; d_handleExec := handleExec; d_customMethods := customMethods |})
  end.

(** [d.exec(cb)]: the handler runs, unless this Deferred has already begun
    executing, in which case the call is ignored. *)
Definition exec (d : deferred) (cb : callback) : M unit :=
  λ w,
    if decide (d_id d ∈ begun w) then (tt, w)
    else d_handleExec d cb (World (next w) (heap w) ({[d_id d]} ∪ begun w) (trace w)).

(** [d[name](arg)] for a custom method; calling a method the Deferred does
    not have throws. *)
Definition callMethod (d : deferred) (name : string) (arg : value) : M (outcome nat) :=
  match list_find (λ p, p.1 = name) (d_customMethods d) with
  | Some (_, (_, f)) => r ← f (d_id d) arg; mret (Returned r)
  | None => mret (Threw TypeError)
  end.

(** ** The four datastore methods *)

Section Methods.

(** The instance whose methods these are: the scope they close over. *)
Variable self : rdi.

Definition leaseConnection (_during : value) (explicitCb : option callback)
    (more : option dict) : M (option deferred) :=
  options ← newRecord (list_to_map [
    ("datastoreName", VStr (datastoreName self));
    ("adapter", adapter self);
    ("during", _during);
    ("meta", VUndefined)
  ]);
  match more with
  | Some more => extendRecord options more
  | None => mret tt
  end;;
  parley (λ done,
    match genericDoesNotSupportDatastoreMethodsError self with
    | Some e => emit (CallDone done e)
    | None =>
      if not_flag (isConnectable self) then
        e ← newError (
          "Cannot use `.leaseConnection()` with this datastore because the underlying adapter " +:+
          "does not implement the " +:+ dq +:+ "connectable" +:+ dq +:+ " interface layer.  This may be because of a " +:+
          "natural limitation of the technology, or it could just be that the adapter's " +:+
          "developer(s) have not finished implementing one or more driver methods.");
        emit (CallDone done (flaverr "E_NOT_SUPPORTED" e))
      else
        o ← readRecord options;
        emit (CallHelper helpLeaseConnection options o done)
    end) explicitCb [
    ("meta", λ this _meta, setField options "meta" _meta;; mret this)
  ].

Definition sendStatement (_statement : value) (explicitCb : option callback)
    (more : option dict) : M (option deferred) :=
  options ← newRecord (list_to_map [
    ("datastoreName", VStr (datastoreName self));
    ("adapter", adapter self);
    ("statement", _statement);
    ("meta", VUndefined);
    ("usingConnection", VUndefined)
  ]);
  match more with
  | Some more => extendRecord options more
  | None => mret tt
  end;;
  parley (λ done,
    match genericDoesNotSupportDatastoreMethodsError self with
    | Some e => emit (CallDone done e)
    | None =>
      if not_flag (isQueryable self) then
        e ← newError (
          "Cannot use `.sendStatement()` with this datastore because the underlying adapter " +:+
          "does not implement the " +:+ dq +:+ "queryable" +:+ dq +:+ " interface layer.  This may be because of a " +:+
          "natural limitation of the technology, or it could just be that the adapter's " +:+
          "developer(s) have not finished implementing one or more driver methods.");
        emit (CallDone done (flaverr "E_NOT_SUPPORTED" e))
      else
        o ← readRecord options;
        emit (CallHelper helpSendStatement options o done)
    end) explicitCb [
    ("meta", λ this _meta, setField options "meta" _meta;; mret this);
    ("usingConnection", λ this _usingConnection,
       setField options "usingConnection" _usingConnection;; mret this)
  ].

Definition sendNativeQuery (_nativeQuery : value) (explicitCb : option callback)
    (more : option dict) : M (option deferred) :=
  options ← newRecord (list_to_map [
    ("datastoreName", VStr (datastoreName self));
    ("adapter", adapter self);
    ("nativeQuery", _nativeQuery);
    ("meta", VUndefined);
    ("usingConnection", VUndefined)
  ]);
  match more with
  | Some more => extendRecord options more
  | None => mret tt
  end;;
  parley (λ done,
    match genericDoesNotSupportDatastoreMethodsError self with
    | Some e => emit (CallDone done e)
    | None =>
      if not_flag (isQueryable self) then
        e ← newError (
          "Cannot use `.sendNativeQuery()` with this datastore because the underlying adapter " +:+
          "does not implement the " +:+ dq +:+ "queryable" +:+ dq +:+ " interface layer.  This may be because of a " +:+
          "natural limitation of the technology, or it could just be that the adapter's " +:+
          "developer(s) have not finished implementing one or more driver methods.");
        emit (CallDone done (flaverr "E_NOT_SUPPORTED" e))
      else
        o ← readRecord options;
        emit (CallHelper helpSendNativeQuery options o done)
    end) explicitCb [
    ("meta", λ this _meta, setField options "meta" _meta;; mret this);
    ("usingConnection", λ this _usingConnection,
       setField options "usingConnection" _usingConnection;; mret this)
  ].

Definition transaction (_during : value) (explicitCb : option callback)
    (more : option dict) : M (option deferred) :=
  options ← newRecord (list_to_map [
    ("datastoreName", VStr (datastoreName self));
    ("adapter", adapter self);
    ("during", _during);
    ("meta", VUndefined)
  ]);
  match more with
  | Some more => extendRecord options more
  | None => mret tt
  end;;
  parley (λ done,
    match genericDoesNotSupportDatastoreMethodsError self with
    | Some e => emit (CallDone done e)
    | None =>
      if not_flag (isTransactional self) then
        e ← newError (
          "Cannot use `.transaction()` with this datastore because the underlying adapter " +:+
          "does not implement the " +:+ dq +:+ "transactional" +:+ dq +:+ " interface layer.  This may be because of a " +:+
          "natural limitation of the technology, or it could just be that the adapter's " +:+
          "developer(s) have not finished implementing one or more driver methods.");
        emit (CallDone done (flaverr "E_NOT_SUPPORTED" e))
      else
        o ← readRecord options;
        emit (CallHelper helpRunTransaction options o done)
    end) explicitCb [
    ("meta", λ this _meta, setField options "meta" _meta;; mret this)
  ].

End Methods.

(** ** Vocabulary for the statements *)

(** The four methods of an instance, to quantify over them. *)
Inductive method : Type :=
| LeaseConnection
| SendStatement
| SendNativeQuery
| Transaction.

(** [rdi[m](primaryArg, explicitCb, more)] *)
Definition call (m : method) (self : rdi)
  : value → option callback → option dict → M (option deferred) :=
  match m with
  | LeaseConnection => leaseConnection self
  | SendStatement => sendStatement self
  | SendNativeQuery => sendNativeQuery self
  | Transaction => transaction self
  end.

(** The capability variable a method tests and the helper it hands over to. *)
Definition tier (m : method) (self : rdi) : option bool :=
  match m with
  | LeaseConnection => isConnectable self
  | SendStatement | SendNativeQuery => isQueryable self
  | Transaction => isTransactional self
  end.

Definition helperOf (m : method) : helper :=
  match m with
  | LeaseConnection => helpLeaseConnection
  | SendStatement => helpSendStatement
  | SendNativeQuery => helpSendNativeQuery
  | Transaction => helpRunTransaction
  end.

(** The interface layer a method needs, as its message spells it. *)
Definition layerName (m : method) : string :=
  match m with
  | LeaseConnection => "connectable"
  | SendStatement | SendNativeQuery => "queryable"
  | Transaction => "transactional"
  end.

(** The field of the call-options record that holds the primary argument. *)
Definition primaryField (m : method) : string :=
  match m with
  | LeaseConnection | Transaction => "during"
  | SendStatement => "statement"
  | SendNativeQuery => "nativeQuery"
  end.

(** The chainable setters of the Deferred a method returns. *)
Definition setters (m : method) : list string :=
  match m with
  | LeaseConnection | Transaction => ["meta"]
  | SendStatement | SendNativeQuery => ["meta"; "usingConnection"]
  end.

(** The record a method assembles before [more] is merged over it. *)
Definition assembled (m : method) (self : rdi) (primaryArg : value) : dict :=
  <["datastoreName" := VStr (datastoreName self)]>
    (<["adapter" := adapter self]>
      (<[primaryField m := primaryArg]>
        (<["meta" := VUndefined]>
          match m with
          | LeaseConnection | Transaction => ∅
          | SendStatement | SendNativeQuery => <["usingConnection" := VUndefined]> ∅
          end))).

Definition isDelegation (ev : event) : bool :=
  match ev with
  | CallHelper _ _ _ _ => true
  | CallDone _ _ => false
  end.

(** [s] occurs in [msg]. *)
Definition mentions (msg s : string) : Prop :=
  ∃ before after : string, msg = before +:+ s +:+ after.

(** Two runs of the build end the same way: the same throw, or handles
    with the same capability variables and the same kind of terminal error
    (or none in both). *)
Definition sameVerdict (r1 r2 : outcome rdi) : Prop :=
  match r1, r2 with
  | Threw t1, Threw t2 => t1 = t2
  | Returned h1, Returned h2 =>
    isConnectable h1 = isConnectable h2
    ∧ isQueryable h1 = isQueryable h2
    ∧ isTransactional h1 = isTransactional h2
    ∧ code <$> genericDoesNotSupportDatastoreMethodsError h1
      = code <$> genericDoesNotSupportDatastoreMethodsError h2
    ∧ message <$> genericDoesNotSupportDatastoreMethodsError h1
      = message <$> genericDoesNotSupportDatastoreMethodsError h2
  | _, _ => False
  end.

(** ** Sample inputs *)

Definition emptyWorld : world := World 0 ∅ ∅ [].

(** A compatibility check that lets every adapter through. *)
Definition everyAdapterCompatible : string → value → option string := λ _ _, None.

Definition methodTable (names : list string) : dict :=
  list_to_map ((λ n, (n, VFun n)) <$> names).

Definition connectableNames : list string :=
  ["createManager"; "destroyManager"; "getConnection"; "releaseConnection"].

Definition allElevenNames : list string :=
  connectableNames
  ++ ["sendNativeQuery"; "compileStatement"; "parseNativeQueryResult"; "parseNativeQueryError"]
  ++ ["beginTransaction"; "commitTransaction"; "rollbackTransaction"].

(** [{ datastores: { default: entry } }] *)
Definition adapterExposing (entry : dict) : value :=
  VDict {[ "datastores" := VDict {[ "default" := VDict entry ]} ]}.

(** [{ manager: {}, driver: { ...names }, config: {} }] *)
Definition entryWithDriver (names : list string) : dict :=
  list_to_map [("manager", VDict ∅); ("driver", VDict (methodTable names)); ("config", VDict ∅)].

(** [{ manager: {}, config: {} }]: an entry without its driver. *)
Definition entryWithoutDriver : dict :=
  list_to_map [("manager", VDict ∅); ("config", VDict ∅)].

Definition sampleConfig : value := VDict {[ "adapter" := VStr "sails-disk" ]}.

(** A handle whose driver was found to implement every layer. *)
Definition fullyCapable : rdi := {|
  internalConfig := sampleConfig;
  adapter := adapterExposing (entryWithDriver allElevenNames);
  datastoreName := "default";
  genericDoesNotSupportDatastoreMethodsError := None;
  isConnectable := Some true;
  isQueryable := Some true;
  isTransactional := Some true;
|}.

(** A handle whose driver was found to implement the first layer only. *)
Definition connectableOnly : rdi := {|
  internalConfig := sampleConfig;
  adapter := adapterExposing (entryWithDriver connectableNames);
  datastoreName := "default";
  genericDoesNotSupportDatastoreMethodsError := None;
  isConnectable := Some true;
  isQueryable := Some false;
  isTransactional := Some false;
|}.

(** ** The four methods, seen as one *)

(** The four methods differ in the field that holds the primary argument,
    in the capability they test, in the message of the capability error, in
    the helper they call and in the setters they offer.  These definitions
    say so in one place; [call_with_callback] and [call_for_deferred] show
    that each method is an instance of them. *)

Definition methodName (m : method) : string :=
  match m with
  | LeaseConnection => "leaseConnection"
  | SendStatement => "sendStatement"
  | SendNativeQuery => "sendNativeQuery"
  | Transaction => "transaction"
  end.

Definition notImplementedMsg (m : method) : string :=
  "Cannot use `." +:+ methodName m +:+ "()` with this datastore because the underlying adapter " +:+
  "does not implement the " +:+ dq +:+ layerName m +:+ dq +:+ " interface layer.  This may be because of a " +:+
  "natural limitation of the technology, or it could just be that the adapter's " +:+
  "developer(s) have not finished implementing one or more driver methods.".

Definition handleExec (m : method) (self : rdi) (options : nat) (done : callback) : M unit :=
  match genericDoesNotSupportDatastoreMethodsError self with
  | Some e => emit (CallDone done e)
  | None =>
    if not_flag (tier m self) then
      e ← newError (notImplementedMsg m);
      emit (CallDone done (flaverr "E_NOT_SUPPORTED" e))
    else
      o ← readRecord options;
      emit (CallHelper (helperOf m) options o done)
  end.

Definition setter (options : nat) (field : string) : customMethod :=
  λ this v, setField options field v;; mret this.

Definition customMethodsOf (m : method) (options : nat) : list (string * customMethod) :=
  (λ field, (field, setter options field)) <$> setters m.

(** The call-options record once [more] has been merged over it. *)
Definition callOptions (m : method) (self : rdi) (primaryArg : value)
    (more : option dict) : dict :=
  match more with
  | Some more => lodash.extend (assembled m self primaryArg) more
  | None => assembled m self primaryArg
  end.

(** The world once the record of a call has been assembled at [next w]. *)
Definition assembledWorld (m : method) (self : rdi) (primaryArg : value)
    (more : option dict) (w : world) : world :=
  World (S (next w)) (<[next w := callOptions m self primaryArg more]> (heap w))
        (begun w) (trace w).

(** The handle the build returns for an adapter that has an own
    [datastores] property: the first structural error, and no capability variable
    assigned. *)
Definition refusedHandle (cfg : value) (a : value) (i : nat) : rdi := {|
  internalConfig := cfg;
  adapter := a;
  datastoreName := "default";
  genericDoesNotSupportDatastoreMethodsError := Some {|
    oid := i;
    code := Some "E_NOT_SUPPORTED";
    message := doesNotExposeDatastoresMsg "default";
  |};
  isConnectable := None;
  isQueryable := None;
  isTransactional := None;
|}.

(** A handle with the terminal error set and every capability variable
    true all the same. *)
Definition refusedThoughCapable : rdi := {|
  internalConfig := sampleConfig;
  adapter := adapterExposing (entryWithDriver allElevenNames);
  datastoreName := "default";
  genericDoesNotSupportDatastoreMethodsError := Some {|
    oid := 7;
    code := Some "E_NOT_SUPPORTED";
    message := doesNotExposeDatastoresMsg "default";
  |};
  isConnectable := Some true;
  isQueryable := Some true;
  isTransactional := Some true;
|}.

(** ** More vocabulary and sample inputs *)

(** The method names the second and the third layer add. *)
Definition queryableNames : list string :=
  ["sendNativeQuery"; "compileStatement"; "parseNativeQueryResult"; "parseNativeQueryError"].


(** The fields a method puts in its call-options record. *)
Definition fields (m : method) : list string :=
  "datastoreName" :: "adapter" :: primaryField m :: "meta" ::
  match m with
  | LeaseConnection | Transaction => []
  | SendStatement | SendNativeQuery => ["usingConnection"]
  end.

Definition startsWith (msg s : string) : Prop := ∃ after : string, msg = s +:+ after.
Definition endsWith (msg s : string) : Prop := ∃ before : string, msg = before +:+ s.

(** What a build comes to, apart from the identity of the error object it
    may make: a throw, a handle that refuses every method with a terminal
    error of the given message, or a handle with the three capability
    variables assigned. *)
Inductive verdict : Type :=
| Aborts (t : thrown)
| Refuses (msg : string)
| Accepts (c q t : bool).

(** The outcome and the world a verdict stands for, from the world [w]. *)
Definition realise (cfg : value) (a : value) (name : string) (v : verdict) (w : world)
  : outcome rdi * world :=
  match v with
  | Aborts t => (Threw t, w)
  | Refuses msg =>
    (Returned {|
       internalConfig := cfg;
       adapter := a;
       datastoreName := name;
       genericDoesNotSupportDatastoreMethodsError := Some {|
         oid := next w;
         code := Some "E_NOT_SUPPORTED";
         message := msg;
       |};
       isConnectable := None;
       isQueryable := None;
       isTransactional := None;
     |},
     World (S (next w)) (heap w) (begun w) (trace w))
  | Accepts c q t =>
    (Returned {|
       internalConfig := cfg;
       adapter := a;
       datastoreName := name;
       genericDoesNotSupportDatastoreMethodsError := None;
       isConnectable := Some c;
       isQueryable := Some q;
       isTransactional := Some t;
     |},
     w)
  end.

(** Two events are the same call up to the identity of the error object
    handed to the callback. *)
Definition sameCall (ev1 ev2 : event) : Prop :=
  match ev1, ev2 with
  | CallHelper h1 l1 o1 cb1, CallHelper h2 l2 o2 cb2 =>
    h1 = h2 ∧ l1 = l2 ∧ o1 = o2 ∧ cb1 = cb2
  | CallDone cb1 e1, CallDone cb2 e2 =>
    cb1 = cb2 ∧ code e1 = code e2 ∧ message e1 = message e2
  | _, _ => False
  end.


(** * Properties *)

(** ** How the build ends *)

Lemma has_own_property (v : value) (k : string) :
  lodash.has v k = true ↔ is_Some (ownProperties v !! k).
Proof. apply bool_decide_eq_true. Qed.

Lemma has_no_own_property (v : value) (k : string) :
  lodash.has v k = false ↔ ownProperties v !! k = None.
Proof.
  unfold lodash.has. rewrite bool_decide_eq_false, eq_None_not_Some. reflexivity.
Qed.

(** A value with an own property is an object: its properties can be read. *)
Lemma has_getProp (v : value) (k k' : string) :
  lodash.has v k = true → getProp v k' = Returned (lookupChain v k').
Proof.
  intros Hhas. apply has_own_property in Hhas as [x Hx].
  destruct v; simpl in Hx; try (rewrite lookup_empty in Hx; discriminate); reflexivity.
Qed.

(** An own property is what a read finds, whatever the prototype holds. *)
Lemma lookupChain_own (v : value) (k : string) (x : value) :
  ownProperties v !! k = Some x → lookupChain v k = x.
Proof.
  destruct v; simpl; intros Hx; try (rewrite lookup_empty in Hx; discriminate);
    by rewrite Hx.
Qed.

(** When the probe assigns the capability variables, they are the layers
    of some driver's method names. *)
Lemma probeDriver_assigns name (a : value) c q t :
  probeDriver name a None = Returned (c, q, t) →
  ∃ names c' q' t',
    interfaceLayers names = (c', q', t')
    ∧ c = Some c' ∧ q = Some q' ∧ t = Some t'.
Proof.
  unfold probeDriver. intros Hp.
  destruct (getProp a "datastores") as [ds|]; [|done]. simpl in Hp.
  destruct (getProp ds name) as [entry|]; [|done]. simpl in Hp.
  destruct (getProp entry "driver") as [driver|]; [|done]. simpl in Hp.
  destruct (assert _ _); [|done]. simpl in Hp.
  destruct (interfaceLayers (lodash.keys driver)) as [[c' q'] t'] eqn:Hl.
  injection Hp as <- <- <-. eauto 10.
Qed.

Section BuildFacts.

Variable checkAdapterCompatibility : string → value → option string.

Abbreviation build := (buildRegisteredDatastoreInstance checkAdapterCompatibility).

(** The compatibility check throws: so does the build, before anything
    else happens. *)
Lemma build_incompatible name cfg (a : value) version reason w :
  getProp a "adapterApiVersion" = Returned version →
  checkAdapterCompatibility name a = Some reason →
  build name cfg a w = (Threw (IncompatibleAdapter reason), w).
Proof.
  intros Hv Hchk. unfold buildRegisteredDatastoreInstance. rewrite Hv, Hchk. reflexivity.
Qed.

(** The adapter has an own [datastores] property: the handle carries the
    first structural error, a new object, and no capability variable. *)
Lemma build_with_datastores name cfg (a : value) w :
  checkAdapterCompatibility name a = None →
  lodash.has a "datastores" = true →
  build name cfg a w
  = (Returned {|
       internalConfig := cfg;
       adapter := a;
       datastoreName := name;
       genericDoesNotSupportDatastoreMethodsError := Some {|
         oid := next w;
         code := Some "E_NOT_SUPPORTED";
         message := doesNotExposeDatastoresMsg name;
       |};
       isConnectable := None;
       isQueryable := None;
       isTransactional := None;
     |},
     World (S (next w)) (heap w) (begun w) (trace w)).
Proof.
  intros Hchk Hds.
  unfold buildRegisteredDatastoreInstance, checkDatastoreAccess.
  rewrite (has_getProp a "datastores" "adapterApiVersion") by done.
  rewrite Hchk, Hds. reflexivity.
Qed.

(** The adapter has no own [datastores] property and inherits none either:
    reading [adapter.datastores[datastoreName]] throws. *)
Lemma build_without_datastores name cfg (a : value) w :
  checkAdapterCompatibility name a = None →
  lodash.has a "datastores" = false →
  getProp a "datastores" = Returned VUndefined ∨ getProp a "datastores" = Returned VNull →
  build name cfg a w = (Threw TypeError, w).
Proof.
  intros Hchk Hhas Hds.
  assert (∀ k, getProp a k = Returned (lookupChain a k)) as Hget.
  { intros k. destruct a; try reflexivity; destruct Hds; discriminate. }
  unfold buildRegisteredDatastoreInstance, checkDatastoreAccess.
  rewrite (Hget "adapterApiVersion"), Hchk, Hhas.
  destruct Hds as [-> | ->]; reflexivity.
Qed.

(** What a build comes to: it is decided by the adapter and the name
    alone, and the world only lends the identity of the error object. *)
Lemma build_verdict name cfg (a : value) :
  ∃ v : verdict,
    (∀ w, build name cfg a w = realise cfg a name v w)
    ∧ match v with
      | Aborts _ => True
      | Refuses msg =>
        msg ∈ [doesNotExposeDatastoresMsg name; missingDatastoreReferenceMsg name;
               incompleteDatastoreReferenceMsg name]
        ∧ (lodash.has a "datastores" = true → msg = doesNotExposeDatastoresMsg name)
      | Accepts c q t =>
        lodash.has a "datastores" = false
        ∧ probeDriver name a None = Returned (Some c, Some q, Some t)
      end.
Proof.
  unfold buildRegisteredDatastoreInstance.
  destruct (getProp a "adapterApiVersion") as [version|thrown].
  2: { exists (Aborts thrown). split; [intros w; reflexivity|done]. }
  destruct (checkAdapterCompatibility name a) as [reason|].
  { exists (Aborts (IncompatibleAdapter reason)). split; [intros w; reflexivity|done]. }
  unfold checkDatastoreAccess.
  destruct (lodash.has a "datastores") eqn:Hhas.
  { exists (Refuses (doesNotExposeDatastoresMsg name)).
    split; [intros w; reflexivity|]. split; [repeat constructor|done]. }
  destruct (datastores ← getProp a "datastores"; getProp datastores name)
    as [entry|thrown].
  2: { exists (Aborts thrown). split; [intros w; reflexivity|done]. }
  destruct (negb (truthy entry)).
  { exists (Refuses (missingDatastoreReferenceMsg name)).
    split; [intros w; reflexivity|]. split; [repeat constructor|done]. }
  destruct (negb (lodash.has entry "manager") || negb (lodash.has entry "driver")
            || negb (lodash.has entry "config")).
  { exists (Refuses (incompleteDatastoreReferenceMsg name)).
    split; [intros w; reflexivity|]. split; [repeat constructor|done]. }
  destruct (probeDriver name a None) as [[[c q] t]|thrown] eqn:Hp.
  2: { exists (Aborts thrown). split; [|done]. intros w.
       unfold mbind, M_bind, mret, M_ret. cbn -[probeDriver]. by rewrite Hp. }
  destruct (probeDriver_assigns _ _ _ _ _ Hp) as (names & c' & q' & t' & _ & -> & -> & ->).
  exists (Accepts c' q' t'). split; [|done]. intros w.
  unfold mbind, M_bind, mret, M_ret. cbn -[probeDriver]. by rewrite Hp.
Qed.

End BuildFacts.

Lemma difference_nil_iff (array values : list string) :
  length (lodash.difference array values) = 0 ↔ ∀ x, x ∈ array → x ∈ values.
Proof.
  unfold lodash.difference. rewrite length_zero_iff_nil. split.
  - intros Hnil x Hx. destruct (decide (x ∈ values)) as [|Hn]; [done|].
    assert (x ∈ filter (λ x, x ∉ values) array) as Hin
      by (apply list_elem_of_filter; done).
    rewrite Hnil in Hin. by apply elem_of_nil in Hin.
  - intros Hall. induction array as [|y ys IH]; [done|].
    rewrite filter_cons. destruct (decide (y ∉ values)) as [Hn|_].
    + exfalso. apply Hn, Hall. left.
    + apply IH. intros x Hx. apply Hall. by right.
Qed.

(** Unfolds the monadic plumbing of a method call. *)
Ltac unfold_call :=
  unfold call, leaseConnection, sendStatement, sendNativeQuery, transaction,
    parley, newRecord, extendRecord, newError, readRecord, emit, fresh, handleExec,
    mbind, M_bind, mret, M_ret;
  cbn -[lodash.extend].

Lemma call_with_callback m self arg cb more w :
  call m self arg (Some cb) more w
  = (None, (handleExec m self (next w) cb (assembledWorld m self arg more w)).2).
Proof.
  unfold assembledWorld, callOptions.
  destruct self as [cfg a name [e|] c q t], m, more as [more|]; unfold_call;
    rewrite ?alter_insert_eq; try reflexivity.
  all: match goal with |- context [not_flag ?f] => destruct (not_flag f) end; reflexivity.
Qed.

Lemma call_for_deferred m self arg more w :
  call m self arg None more w
  = (Some {| d_id := S (next w);
             d_handleExec := handleExec m self (next w);
             d_customMethods := customMethodsOf m (next w) |},
     World (S (S (next w))) (<[next w := callOptions m self arg more]> (heap w))
           (begun w) (trace w)).
Proof.
  unfold callOptions.
  destruct m, more as [more|]; unfold_call;
    rewrite ?alter_insert_eq; reflexivity.
Qed.

(** What the handler of a method does, case by case. *)
Lemma handleExec_terminal m self options cb e w :
  genericDoesNotSupportDatastoreMethodsError self = Some e →
  handleExec m self options cb w
  = (tt, World (next w) (heap w) (begun w) (trace w ++ [CallDone cb e])).
Proof. intros He. unfold handleExec. rewrite He. reflexivity. Qed.

Lemma handleExec_unsupported m self options cb w :
  genericDoesNotSupportDatastoreMethodsError self = None →
  tier m self ≠ Some true →
  handleExec m self options cb w
  = (tt, World (S (next w)) (heap w) (begun w)
           (trace w ++ [CallDone cb {| oid := next w;
                                      code := Some "E_NOT_SUPPORTED";
                                      message := notImplementedMsg m |}])).
Proof.
  intros He Ht. unfold handleExec. rewrite He.
  destruct (tier m self) as [[]|]; [done| |]; reflexivity.
Qed.

Lemma handleExec_delegates m self options cb w :
  genericDoesNotSupportDatastoreMethodsError self = None →
  tier m self = Some true →
  handleExec m self options cb w
  = (tt, World (next w) (heap w) (begun w)
           (trace w ++ [CallHelper (helperOf m) options (default ∅ (heap w !! options)) cb])).
Proof. intros He Ht. unfold handleExec. rewrite He, Ht. reflexivity. Qed.

(** A handler that is blocked adds one event, and it is not a delegation. *)
Lemma handleExec_blocked m self options cb w :
  is_Some (genericDoesNotSupportDatastoreMethodsError self) ∨ tier m self ≠ Some true →
  ∃ err, (handleExec m self options cb w).2.(trace) = trace w ++ [CallDone cb err].
Proof.
  intros Hblocked.
  destruct (genericDoesNotSupportDatastoreMethodsError self) as [e|] eqn:He.
  - exists e. by rewrite (handleExec_terminal _ _ _ _ e).
  - destruct Hblocked as [[? [=]]|Ht].
    eexists. by rewrite handleExec_unsupported.
Qed.

Lemma exec_not_begun d cb w :
  d_id d ∉ begun w →
  exec d cb w
  = d_handleExec d cb (World (next w) (heap w) ({[d_id d]} ∪ begun w) (trace w)).
Proof. intros Hd. unfold exec. by rewrite decide_False. Qed.

Lemma exec_begun d cb w :
  d_id d ∈ begun w → exec d cb w = (tt, w).
Proof. intros Hd. unfold exec. by rewrite decide_True. Qed.

Lemma filter_delegations_snoc (t : list event) cb err :
  filter (λ ev, isDelegation ev = true) (t ++ [CallDone cb err])
  = filter (λ ev, isDelegation ev = true) t.
Proof. rewrite filter_app. simpl. rewrite filter_cons_False by done. apply app_nil_r. Qed.

(** A setter of the Deferred of a method writes its field of the record
    the method assembled, returns [this], and does nothing else. *)
Lemma callMethod_setter m handler (i options : nat) field v w :
  field ∈ setters m →
  callMethod {| d_id := i; d_handleExec := handler;
                d_customMethods := customMethodsOf m options |} field v w
  = (Returned i,
     World (next w) (alter (λ d, <[field := v]> d) options (heap w)) (begun w) (trace w)).
Proof.
  intros Hfield.
  assert (field = "meta" ∨ field = "usingConnection" ∧ (m = SendStatement ∨ m = SendNativeQuery))
    as [->|[-> Hm]].
  { destruct m; simpl in Hfield;
      repeat (apply elem_of_cons in Hfield as [->|Hfield]);
      try (by apply elem_of_nil in Hfield); eauto. }
  - destruct m; reflexivity.
  - destruct Hm as [->| ->]; reflexivity.
Qed.

(** A handler reads the store; it never writes it. *)
Lemma handleExec_heap m self options cb w :
  heap (handleExec m self options cb w).2 = heap w.
Proof.
  unfold handleExec.
  destruct (genericDoesNotSupportDatastoreMethodsError self); [reflexivity|].
  destruct (not_flag (tier m self)); reflexivity.
Qed.

(** Whatever way a method is called, its record is a new one, stored at the
    identity that was the next unused one, and older records are as they
    were. *)
Lemma call_allocates m self arg cb more w :
  let w' := (call m self arg cb more w).2 in
  heap w' = <[next w := callOptions m self arg more]> (heap w).
Proof.
  destruct cb as [cb|]; simpl.
  - rewrite call_with_callback. cbn [snd]. by rewrite handleExec_heap.
  - by rewrite call_for_deferred.
Qed.

Lemma interfaceLayers_cumulative (driverMethodNames : list string) c q t :
  interfaceLayers driverMethodNames = (c, q, t) →
  (t = true → q = true) ∧ (q = true → c = true).
Proof.
  unfold interfaceLayers. intros [= <- <- <-]. split.
  - intros Ht. by apply andb_true_iff in Ht as [Hq _].
  - intros Hq. by apply andb_true_iff in Hq as [Hc _].
Qed.

(** The variables the probe assigns satisfy the tier invariant. *)
Lemma probeDriver_cumulative name (a : value) (c q t : bool) :
  probeDriver name a None = Returned (Some c, Some q, Some t) →
  (t = true → q = true) ∧ (q = true → c = true).
Proof.
  intros Hp.
  apply probeDriver_assigns in Hp as (names & c' & q' & t' & Hl & [= ->] & [= ->] & [= ->]).
  by eapply interfaceLayers_cumulative.
Qed.

(** Every handle the build returns satisfies the tier invariant. *)
Lemma built_handle_tiers_cumulative chk name cfg (a : value) w h w' :
  buildRegisteredDatastoreInstance chk name cfg a w = (Returned h, w') →
  (isTransactional h = Some true → isQueryable h = Some true)
  ∧ (isQueryable h = Some true → isConnectable h = Some true).
Proof.
  destruct (build_verdict chk name cfg a) as [v [Hb Hv]]. rewrite Hb.
  destruct v as [thrown|msg|c q t]; simpl; intros [= <- <-]; simpl.
  - split; discriminate.
  - destruct Hv as [_ Hp]. apply probeDriver_cumulative in Hp as [Htq Hqc].
    split; intros [= ->]; f_equal; auto.
Qed.

(** The layers in terms of the driver's method names. *)
Lemma interfaceLayers_spec (driverMethodNames : list string) c q t :
  interfaceLayers driverMethodNames = (c, q, t) →
  (c = true ↔ ∀ x, x ∈ connectableNames → x ∈ driverMethodNames)
  ∧ (q = true ↔ c = true ∧
       ∀ x, x ∈ ["sendNativeQuery"; "compileStatement";
                 "parseNativeQueryResult"; "parseNativeQueryError"] →
            x ∈ driverMethodNames)
  ∧ (t = true ↔ q = true ∧
       ∀ x, x ∈ ["beginTransaction"; "commitTransaction"; "rollbackTransaction"] →
            x ∈ driverMethodNames).
Proof.
  unfold interfaceLayers. intros [= <- <- <-].
  rewrite !andb_true_iff, !bool_decide_eq_true, !difference_nil_iff.
  done.
Qed.

(** The capability error of a method names the layer it needs and the
    method itself. *)
Lemma notImplementedMsg_mentions (m : method) :
  mentions (notImplementedMsg m) (dq +:+ layerName m +:+ dq)
  ∧ mentions (notImplementedMsg m) ("`." +:+ methodName m +:+ "()`").
Proof.
  split.
  - exists ("Cannot use `." +:+ methodName m +:+
            "()` with this datastore because the underlying adapter " +:+
            "does not implement the "),
           (" interface layer.  This may be because of a " +:+
            "natural limitation of the technology, or it could just be that the adapter's " +:+
            "developer(s) have not finished implementing one or more driver methods.").
    destruct m; reflexivity.
  - exists "Cannot use ",
           (" with this datastore because the underlying adapter " +:+
            "does not implement the " +:+ dq +:+ layerName m +:+ dq +:+
            " interface layer.  This may be because of a " +:+
            "natural limitation of the technology, or it could just be that the adapter's " +:+
            "developer(s) have not finished implementing one or more driver methods.").
    destruct m; reflexivity.
Qed.

(** On a handle whose driver is connectable and no more, the methods do
    what their layers allow: [leaseConnection] hands over to its helper,
    the other three call back with a capability error. *)
Lemma methods_of_a_connectable_handle (m : method) (arg : value) (cb : callback) (w : world) :
  trace (call m connectableOnly arg (Some cb) None w).2
  = trace w ++ [
      match m with
      | LeaseConnection =>
        CallHelper helpLeaseConnection (next w)
          (assembled LeaseConnection connectableOnly arg) cb
      | _ =>
        CallDone cb {| oid := S (next w);
                       code := Some "E_NOT_SUPPORTED";
                       message := notImplementedMsg m |}
      end].
Proof.
  rewrite call_with_callback. cbn [snd].
  destruct m.
  - rewrite handleExec_delegates by done. cbn [trace heap assembledWorld].
    by rewrite lookup_insert_eq.
  - by rewrite handleExec_unsupported.
  - by rewrite handleExec_unsupported.
  - by rewrite handleExec_unsupported.
Qed.

(** ** The properties, one by one *)

(** C1, at the adapter [{}] and the datastore name "default": the adapter
    exposes no [datastores] at all, and the build throws a TypeError
    instead of returning a handle whose methods fail with E_NOT_SUPPORTED. *)
Example C1_adapter_without_datastores_aborts_build :
  buildRegisteredDatastoreInstance everyAdapterCompatible "default" sampleConfig (VDict ∅)
    emptyWorld
  = (Threw TypeError, emptyWorld).
Proof. reflexivity. Qed.

(** C2, at an adapter whose entry for "default" has [manager], [driver]
    and [config] and whose driver has all eleven methods: the build sets the
    terminal error all the same, no capability variable is assigned, and
    each of the four methods calls back with that error and delegates to no
    helper. *)
Example C2_complete_adapter_is_refused :
  let a := adapterExposing (entryWithDriver allElevenNames) in
  let h := refusedHandle sampleConfig a 0 in
  let cb := Callback "cb" in
  ∃ w e,
    buildRegisteredDatastoreInstance everyAdapterCompatible "default" sampleConfig a emptyWorld
    = (Returned h, w)
    ∧ genericDoesNotSupportDatastoreMethodsError h = Some e
    ∧ code e = Some "E_NOT_SUPPORTED"
    ∧ ∀ m, trace (call m h (VFun "arg") (Some cb) None w).2 = [CallDone cb e].
Proof.
  intros a h cb. eexists _, _. split; [vm_compute; reflexivity|].
  split; [reflexivity|]. split; [reflexivity|].
  intros []; reflexivity.
Qed.

(** C3, as stated, at an adapter that has no own [datastores] property and
    inherits one from its prototype, with a complete entry for "default":
    the own-property test of line 73 fails, the read of line 88 finds the
    inherited dictionary, and the build returns a handle with no terminal
    error and every capability variable true.  It throws nothing. *)
Lemma C3_counterexample_inherited_datastores :
  let a := VDerived ∅ (adapterExposing (entryWithDriver allElevenNames)) in
  lodash.has a "datastores" = false
  ∧ buildRegisteredDatastoreInstance everyAdapterCompatible "default" sampleConfig a emptyWorld
    = (Returned {|
         internalConfig := sampleConfig;
         adapter := a;
         datastoreName := "default";
         genericDoesNotSupportDatastoreMethodsError := None;
         isConnectable := Some true;
         isQueryable := Some true;
         isTransactional := Some true;
       |},
       emptyWorld)
  ∧ ¬ ∃ t w, buildRegisteredDatastoreInstance everyAdapterCompatible "default" sampleConfig a
               emptyWorld = (Threw t, w).
Proof.
  intros a.
  assert (buildRegisteredDatastoreInstance everyAdapterCompatible "default" sampleConfig a
            emptyWorld
          = (Returned {|
               internalConfig := sampleConfig;
               adapter := a;
               datastoreName := "default";
               genericDoesNotSupportDatastoreMethodsError := None;
               isConnectable := Some true;
               isQueryable := Some true;
               isTransactional := Some true;
             |},
             emptyWorld)) as Hb by (vm_compute; reflexivity).
  split; [reflexivity|]. split; [exact Hb|].
  intros (t & w & Ht). rewrite Hb in Ht. discriminate.
Qed.

(** C3, amended: for every adapter that has no own [datastores] property
    and inherits none, so that reading [adapter.datastores] gives undefined
    or null, the build throws before it returns: no handle comes back, no
    error object is made and nothing else happens.  When the compatibility
    check lets the adapter through, what is thrown is the TypeError of
    reading [adapter.datastores[datastoreName]]. *)
Theorem C3_build_throws_when_datastores_reads_undefined
    (checkAdapterCompatibility : string → value → option string)
    (name : string) (cfg : value) (a : value) (w : world) :
  lodash.has a "datastores" = false →
  getProp a "datastores" = Returned VUndefined ∨ getProp a "datastores" = Returned VNull →
  ∃ t, buildRegisteredDatastoreInstance checkAdapterCompatibility name cfg a w = (Threw t, w)
       ∧ (checkAdapterCompatibility name a = None → t = TypeError).
Proof.
  intros Hhas Hds.
  destruct (checkAdapterCompatibility name a) as [reason|] eqn:Hchk.
  - exists (IncompatibleAdapter reason). split; [|done].
    apply (build_incompatible _ _ _ _ (lookupChain a "adapterApiVersion")); [|done].
    destruct a; try reflexivity; destruct Hds; discriminate.
  - exists TypeError. split; [|done]. by apply build_without_datastores.
Qed.

Lemma C3_build_throws_when_datastores_reads_undefined_witness :
  let a := VDerived {[ "identity" := VStr "sails-old" ]} (VDict ∅) in
  lodash.has a "datastores" = false
  ∧ (getProp a "datastores" = Returned VUndefined ∨ getProp a "datastores" = Returned VNull)
  ∧ ∃ t, buildRegisteredDatastoreInstance everyAdapterCompatible "default" sampleConfig a
           emptyWorld = (Threw t, emptyWorld)
         ∧ (everyAdapterCompatible "default" a = None → t = TypeError).
Proof.
  intros a.
  assert (lodash.has a "datastores" = false) as Hhas by reflexivity.
  assert (getProp a "datastores" = Returned VUndefined
          ∨ getProp a "datastores" = Returned VNull) as Hds by (left; reflexivity).
  split; [exact Hhas|]. split; [exact Hds|].
  exact (C3_build_throws_when_datastores_reads_undefined everyAdapterCompatible "default"
           sampleConfig a emptyWorld Hhas Hds).
Defined.

(** C4, at an adapter whose driver has exactly the four connectable
    methods: [leaseConnection] does not reach its helper; it calls back
    with the terminal error, whose message names no interface layer, and so
    do the other three methods. *)
Example C4_connectable_driver_is_refused :
  let a := adapterExposing (entryWithDriver connectableNames) in
  let h := refusedHandle sampleConfig a 0 in
  let cb := Callback "cb" in
  ∃ w e,
    buildRegisteredDatastoreInstance everyAdapterCompatible "default" sampleConfig a emptyWorld
    = (Returned h, w)
    ∧ genericDoesNotSupportDatastoreMethodsError h = Some e
    ∧ message e = doesNotExposeDatastoresMsg "default"
    ∧ trace (leaseConnection h (VFun "during") (Some cb) None w).2 = [CallDone cb e]
    ∧ trace (sendStatement h (VDict ∅) (Some cb) None w).2 = [CallDone cb e]
    ∧ trace (sendNativeQuery h (VStr "SELECT 1") (Some cb) None w).2 = [CallDone cb e]
    ∧ trace (transaction h (VFun "during") (Some cb) None w).2 = [CallDone cb e].
Proof.
  intros a h cb. eexists _, _. split; [vm_compute; reflexivity|].
  repeat split; reflexivity.
Qed.

(** C5: when the terminal error is set, each of the four methods calls back
    with that very error object, whatever the capability variables hold,
    both when it is given an explicit callback and when its Deferred is
    executed later.  And whenever the terminal error or the capability test
    blocks a method, the trace gains a call to the callback and no call to a
    helper: both tests come before the delegation. *)
Theorem C5_terminal_error_and_tier_checks_come_first
    (m : method) (self : rdi) (arg : value) (more : option dict)
    (cb : callback) (w : world) :
  (∀ e, genericDoesNotSupportDatastoreMethodsError self = Some e →
     trace (call m self arg (Some cb) more w).2 = trace w ++ [CallDone cb e]
     ∧ ∀ d w1, call m self arg None more w = (Some d, w1) →
         ∀ w2, d_id d ∉ begun w2 →
           trace (exec d cb w2).2 = trace w2 ++ [CallDone cb e])
  ∧ (is_Some (genericDoesNotSupportDatastoreMethodsError self) ∨ tier m self ≠ Some true →
     filter (λ ev, isDelegation ev = true) (trace (call m self arg (Some cb) more w).2)
     = filter (λ ev, isDelegation ev = true) (trace w)
     ∧ ∀ d w1, call m self arg None more w = (Some d, w1) →
         ∀ w2, filter (λ ev, isDelegation ev = true) (trace (exec d cb w2).2)
               = filter (λ ev, isDelegation ev = true) (trace w2)).
Proof.
  split.
  - intros e He. split.
    + rewrite call_with_callback, (handleExec_terminal _ _ _ _ e) by done.
      reflexivity.
    + intros d w1. rewrite call_for_deferred. intros [= <- _] w2 Hd.
      rewrite exec_not_begun by done. simpl.
      rewrite (handleExec_terminal _ _ _ _ e) by done. reflexivity.
  - intros Hblocked. split.
    + rewrite call_with_callback. cbn [snd].
      destruct (handleExec_blocked m self (next w) cb
                  (assembledWorld m self arg more w) Hblocked) as [err ->].
      apply filter_delegations_snoc.
    + intros d w1. rewrite call_for_deferred. intros [= <- _] w2.
      destruct (decide (S (next w) ∈ begun w2)) as [Hd|Hd].
      * by rewrite exec_begun.
      * rewrite exec_not_begun by done. cbn [d_handleExec d_id].
        match goal with |- context [handleExec m self ?l cb ?w'] =>
          destruct (handleExec_blocked m self l cb w' Hblocked) as [err ->] end.
        apply filter_delegations_snoc.
Qed.

Lemma C5_terminal_error_and_tier_checks_come_first_witness :
  let e := {| oid := 7; code := Some "E_NOT_SUPPORTED";
              message := doesNotExposeDatastoresMsg "default" |} in
  let cb := Callback "cb" in
  (genericDoesNotSupportDatastoreMethodsError refusedThoughCapable = Some e
   ∧ trace (call Transaction refusedThoughCapable (VFun "during") (Some cb) None emptyWorld).2
     = trace emptyWorld ++ [CallDone cb e])
  ∧ (tier SendStatement connectableOnly ≠ Some true
     ∧ filter (λ ev, isDelegation ev = true)
         (trace (call SendStatement connectableOnly (VDict ∅) (Some cb) None emptyWorld).2)
       = filter (λ ev, isDelegation ev = true) (trace emptyWorld)).
Proof.
  intros e cb. split.
  - split; [reflexivity|].
    apply (proj1 (C5_terminal_error_and_tier_checks_come_first Transaction
                    refusedThoughCapable (VFun "during") None cb emptyWorld) e).
    reflexivity.
  - assert (tier SendStatement connectableOnly ≠ Some true) as Htier
      by (simpl; discriminate).
    split; [exact Htier|].
    apply (proj2 (C5_terminal_error_and_tier_checks_come_first SendStatement
                    connectableOnly (VDict ∅) None cb emptyWorld)).
    right. exact Htier.
Defined.

(** C6, at an adapter whose entry for "default" has [manager] and [config]
    but no [driver]: the terminal error is E_NOT_SUPPORTED, but its message
    is the one for an adapter that exposes no datastores, not the one for
    an entry with missing keys. *)
Example C6_incomplete_entry_gets_the_wrong_message :
  let a := adapterExposing entryWithoutDriver in
  ∃ w e,
    buildRegisteredDatastoreInstance everyAdapterCompatible "default" sampleConfig a emptyWorld
    = (Returned (refusedHandle sampleConfig a 0), w)
    ∧ genericDoesNotSupportDatastoreMethodsError (refusedHandle sampleConfig a 0) = Some e
    ∧ code e = Some "E_NOT_SUPPORTED"
    ∧ message e = doesNotExposeDatastoresMsg "default"
    ∧ message e ≠ incompleteDatastoreReferenceMsg "default".
Proof.
  intros a. eexists _, _. split; [vm_compute; reflexivity|].
  repeat split; try reflexivity. vm_compute. discriminate.
Qed.

(** C7: whenever the capability variables are computed, for whatever
    adapter and datastore name, a higher layer is true only if the layer
    below it is: transactional implies queryable, queryable implies
    connectable. *)
Theorem C7_capability_tiers_are_cumulative
    (name : string) (a : value) (c q t : bool) :
  probeDriver name a None = Returned (Some c, Some q, Some t) →
  (t = true → q = true) ∧ (q = true → c = true).
Proof.
  unfold probeDriver. intros Hp.
  destruct (getProp a "datastores") as [ds|]; [|done]. simpl in Hp.
  destruct (getProp ds name) as [entry|]; [|done]. simpl in Hp.
  destruct (getProp entry "driver") as [driver|]; [|done]. simpl in Hp.
  destruct (assert _ _); [|done]. simpl in Hp.
  destruct (interfaceLayers (lodash.keys driver)) as [[c' q'] t'] eqn:Hl.
  injection Hp as <- <- <-. by eapply interfaceLayers_cumulative.
Qed.

Lemma C7_capability_tiers_are_cumulative_witness :
  probeDriver "default" (adapterExposing (entryWithDriver allElevenNames)) None
  = Returned (Some true, Some true, Some true)
  ∧ ((true = true → true = true) ∧ (true = true → true = true)).
Proof.
  split; [vm_compute; reflexivity|].
  apply (C7_capability_tiers_are_cumulative "default"
           (adapterExposing (entryWithDriver allElevenNames)) true true true).
  vm_compute; reflexivity.
Defined.

(** C8: the build is deterministic.  Run twice in a row on the same
    datastore name, config and adapter, it ends twice the same way: the
    same throw, or two handles with the same capability variables and a
    terminal error of the same kind (or none in both). *)
Theorem C8_build_is_repeatable
    (checkAdapterCompatibility : string → value → option string)
    (name : string) (cfg : value) (a : value) (w : world) :
  let first := buildRegisteredDatastoreInstance checkAdapterCompatibility name cfg a w in
  let second := buildRegisteredDatastoreInstance checkAdapterCompatibility name cfg a first.2 in
  sameVerdict first.1 second.1.
Proof.
  intros first second. subst first second.
  destruct (build_verdict checkAdapterCompatibility name cfg a) as [v [Hb _]].
  rewrite !Hb. destruct v; simpl; done.
Qed.

(** C9: a method called without a callback returns a Deferred and executes
    nothing.  Each setter of that Deferred ([meta] for all four methods,
    [usingConnection] for [sendStatement] and [sendNativeQuery]) sets its
    field in the call-options record of that call, leaves every other field
    and record alone, returns the Deferred it was called on, and executes
    nothing.  When the Deferred is then executed and the method is allowed
    to delegate, the helper receives that record with the field as set. *)
Theorem C9_setters_configure_the_call_without_running_it
    (m : method) (self : rdi) (arg : value) (more : option dict) (w : world)
    (field : string) (v : value) (cb : callback) :
  field ∈ setters m →
  ∃ d w1,
    call m self arg None more w = (Some d, w1)
    ∧ trace w1 = trace w
    ∧ heap w1 !! next w = Some (callOptions m self arg more)
    ∧ ∀ w2 o, heap w2 !! next w = Some o →
        ∃ w3,
          callMethod d field v w2 = (Returned (d_id d), w3)
          ∧ heap w3 !! next w = Some (<[field := v]> o)
          ∧ (∀ l, l ≠ next w → heap w3 !! l = heap w2 !! l)
          ∧ trace w3 = trace w2
          ∧ begun w3 = begun w2
          ∧ (genericDoesNotSupportDatastoreMethodsError self = None →
             tier m self = Some true →
             d_id d ∉ begun w2 →
             trace (exec d cb w3).2
             = trace w2 ++ [CallHelper (helperOf m) (next w) (<[field := v]> o) cb]).
Proof.
  intros Hfield. rewrite call_for_deferred. eexists _, _. split; [reflexivity|].
  split; [reflexivity|]. split; [apply lookup_insert_eq|].
  intros w2 o Ho. rewrite (callMethod_setter m) by done.
  eexists. split; [reflexivity|]. cbn [heap trace begun next d_id].
  split; [by rewrite lookup_alter_eq, Ho|].
  split; [by intros l Hl; rewrite lookup_alter_ne|].
  split; [done|]. split; [done|].
  intros He Ht Hd. rewrite exec_not_begun by done. cbn [d_handleExec d_id heap trace begun next].
  rewrite handleExec_delegates by done. cbn [snd trace heap].
  by rewrite lookup_alter_eq, Ho.
Qed.

Lemma C9_setters_configure_the_call_without_running_it_witness :
  "usingConnection" ∈ setters SendStatement
  ∧ ∃ d w1,
      call SendStatement fullyCapable (VDict ∅) None None emptyWorld = (Some d, w1)
      ∧ trace w1 = trace emptyWorld
      ∧ heap w1 !! next emptyWorld
        = Some (callOptions SendStatement fullyCapable (VDict ∅) None)
      ∧ ∀ w2 o, heap w2 !! next emptyWorld = Some o →
          ∃ w3,
            callMethod d "usingConnection" (VStr "conn") w2 = (Returned (d_id d), w3)
            ∧ heap w3 !! next emptyWorld = Some (<["usingConnection" := VStr "conn"]> o)
            ∧ (∀ l, l ≠ next emptyWorld → heap w3 !! l = heap w2 !! l)
            ∧ trace w3 = trace w2
            ∧ begun w3 = begun w2
            ∧ (genericDoesNotSupportDatastoreMethodsError fullyCapable = None →
               tier SendStatement fullyCapable = Some true →
               d_id d ∉ begun w2 →
               trace (exec d (Callback "cb") w3).2
               = trace w2 ++ [CallHelper (helperOf SendStatement) (next emptyWorld)
                                (<["usingConnection" := VStr "conn"]> o) (Callback "cb")]).
Proof.
  assert ("usingConnection" ∈ setters SendStatement) as Hfield.
  { simpl. apply list_elem_of_further, list_elem_of_here. }
  split; [exact Hfield|].
  exact (C9_setters_configure_the_call_without_running_it SendStatement fullyCapable
           (VDict ∅) None emptyWorld "usingConnection" (VStr "conn") (Callback "cb") Hfield).
Defined.

(** C10: the third argument [more] is merged over the record the method
    has assembled: every key of [more] has the value [more] gives it, also
    when the method had put a value of its own there, and every other key
    keeps the assembled value.  That merged record is what the helper
    receives, with an explicit callback as well as through the Deferred.
    The record is a new one for each call: the next call gets another one
    and leaves this one as it is. *)
Theorem C10_more_is_merged_over_the_assembled_options
    (m : method) (self : rdi) (arg : value) (cb : callback) (more : dict) (w : world) :
  genericDoesNotSupportDatastoreMethodsError self = None →
  tier m self = Some true →
  let options := more ∪ assembled m self arg in
  let w1 := (call m self arg (Some cb) (Some more) w).2 in
  trace w1 = trace w ++ [CallHelper (helperOf m) (next w) options cb]
  ∧ (∀ k v, more !! k = Some v → options !! k = Some v)
  ∧ (∀ k, more !! k = None → options !! k = assembled m self arg !! k)
  ∧ (∀ d wd, call m self arg None (Some more) w = (Some d, wd) →
       d_id d ∉ begun wd →
       trace (exec d cb wd).2 = trace w ++ [CallHelper (helperOf m) (next w) options cb])
  ∧ ∀ m' self' arg' cb' more',
      let w2 := (call m' self' arg' cb' more' w1).2 in
      next w1 ≠ next w
      ∧ heap w2 !! next w1 = Some (callOptions m' self' arg' more')
      ∧ heap w2 !! next w = Some options.
Proof.
  intros He Ht options w1. subst w1.
  rewrite call_with_callback. cbn [snd].
  rewrite handleExec_delegates by done. cbn [snd trace heap next assembledWorld].
  rewrite lookup_insert_eq. cbn [default callOptions lodash.extend].
  split; [reflexivity|].
  split; [by intros k v Hk; apply lookup_union_Some_l|].
  split; [by intros k Hk; apply lookup_union_r|].
  split.
  - intros d wd. rewrite call_for_deferred. intros [= <- <-] Hd.
    rewrite exec_not_begun by done. cbn [d_handleExec d_id heap trace begun next].
    rewrite handleExec_delegates by done. cbn [snd trace heap].
    by rewrite lookup_insert_eq.
  - intros m' self' arg' cb' more'. cbn zeta.
    rewrite call_allocates. cbn [heap next].
    split; [lia|]. split; [apply lookup_insert_eq|].
    rewrite lookup_insert_ne by lia. apply lookup_insert_eq.
Qed.

Lemma C10_more_is_merged_over_the_assembled_options_witness :
  let more : dict := {[ "during" := VFun "other"; "meta" := VBool true ]} in
  let options := more ∪ assembled LeaseConnection fullyCapable (VFun "during") in
  genericDoesNotSupportDatastoreMethodsError fullyCapable = None
  ∧ tier LeaseConnection fullyCapable = Some true
  ∧ trace (call LeaseConnection fullyCapable (VFun "during")
             (Some (Callback "cb")) (Some more) emptyWorld).2
    = trace emptyWorld ++ [CallHelper helpLeaseConnection 0 options (Callback "cb")]
  ∧ options !! "during" = Some (VFun "other")
  ∧ options !! "meta" = Some (VBool true).
Proof.
  intros more options.
  split; [reflexivity|]. split; [reflexivity|].
  pose proof (C10_more_is_merged_over_the_assembled_options LeaseConnection fullyCapable
                (VFun "during") (Callback "cb") more emptyWorld eq_refl eq_refl)
    as (Htrace & Hmore & _).
  split; [exact Htrace|].
  split; apply Hmore; vm_compute; reflexivity.
Defined.

(** * Further properties *)

(** ** The probe of the driver *)





(** X2: a driver that gains methods loses no layer.  If every method name
    of one driver is a method name of another, each layer the first
    implements the second implements too. *)
Theorem interfaceLayers_monotone (names names' : list string) :
  (∀ x, x ∈ names → x ∈ names') →
  let '(c, q, t) := interfaceLayers names in
  let '(c', q', t') := interfaceLayers names' in
  (c = true → c' = true) ∧ (q = true → q' = true) ∧ (t = true → t' = true).
Proof.
  intros Hsub.
  destruct (interfaceLayers names) as [[c q] t] eqn:Hl.
  destruct (interfaceLayers names') as [[c' q'] t'] eqn:Hl'.
  apply interfaceLayers_spec in Hl as (Hc & Hq & Ht).
  apply interfaceLayers_spec in Hl' as (Hc' & Hq' & Ht').
  assert (c = true → c' = true) as Hcc.
  { rewrite Hc, Hc'. intros H x Hx. by apply Hsub, H. }
  assert (q = true → q' = true) as Hqq.
  { rewrite Hq, Hq'. intros [H1 H2]. split; [by apply Hcc|].
    intros x Hx. by apply Hsub, H2. }
  split; [done|]. split; [done|].
  rewrite Ht, Ht'. intros [H1 H2]. split; [by apply Hqq|].
  intros x Hx. by apply Hsub, H2.
Qed.

Lemma interfaceLayers_monotone_witness :
  (∀ x, x ∈ connectableNames → x ∈ allElevenNames)
  ∧ let '(c, q, t) := interfaceLayers connectableNames in
    let '(c', q', t') := interfaceLayers allElevenNames in
    (c = true → c' = true) ∧ (q = true → q' = true) ∧ (t = true → t' = true).
Proof.
  assert (∀ x, x ∈ connectableNames → x ∈ allElevenNames) as Hsub.
  { intros x Hx. unfold allElevenNames. apply elem_of_app. by left. }
  split; [exact Hsub|].
  exact (interfaceLayers_monotone connectableNames allElevenNames Hsub).
Defined.



(** ** What the build leaves behind *)

(** X4: every handle the build returns keeps the config, the adapter and
    the datastore name it was given, and is of one of two kinds.  Either it
    carries a terminal error, a new object with code E_NOT_SUPPORTED and one
    of the three structural messages, and none of its capability variables
    is assigned; for an adapter with an own [datastores] property it is
    always this kind, with the message for an adapter that does not expose
    its datastores.  Or it carries no terminal error, the adapter has no own
    [datastores] property, and its three capability variables are the ones
    the probe assigns. *)
Theorem build_returns_a_refused_or_a_probed_handle
    (checkAdapterCompatibility : string → value → option string)
    (name : string) (cfg : value) (a : value) (w : world) (h : rdi) (w' : world) :
  buildRegisteredDatastoreInstance checkAdapterCompatibility name cfg a w = (Returned h, w') →
  internalConfig h = cfg
  ∧ adapter h = a
  ∧ datastoreName h = name
  ∧ ((∃ msg,
        genericDoesNotSupportDatastoreMethodsError h
        = Some {| oid := next w; code := Some "E_NOT_SUPPORTED"; message := msg |}
        ∧ msg ∈ [doesNotExposeDatastoresMsg name; missingDatastoreReferenceMsg name;
                 incompleteDatastoreReferenceMsg name]
        ∧ (lodash.has a "datastores" = true → msg = doesNotExposeDatastoresMsg name)
        ∧ isConnectable h = None ∧ isQueryable h = None ∧ isTransactional h = None)
     ∨ (genericDoesNotSupportDatastoreMethodsError h = None
        ∧ lodash.has a "datastores" = false
        ∧ ∃ c q t,
            isConnectable h = Some c ∧ isQueryable h = Some q ∧ isTransactional h = Some t
            ∧ probeDriver name a None = Returned (Some c, Some q, Some t))).
Proof.
  destruct (build_verdict checkAdapterCompatibility name cfg a) as [v [Hb Hv]]. rewrite Hb.
  destruct v as [thrown|msg|c q t]; simpl; intros [= <- <-]; simpl.
  - destruct Hv as [Hmsg Hown]. repeat split; try done. left. exists msg. eauto 10.
  - destruct Hv as [Hown Hp]. repeat split; try done. right. eauto 10.
Qed.

Lemma build_returns_a_refused_or_a_probed_handle_witness :
  let a := VDerived ∅ (adapterExposing (entryWithDriver connectableNames)) in
  let h := {| internalConfig := sampleConfig;
              adapter := a;
              datastoreName := "default";
              genericDoesNotSupportDatastoreMethodsError := None;
              isConnectable := Some true;
              isQueryable := Some false;
              isTransactional := Some false |} in
  buildRegisteredDatastoreInstance everyAdapterCompatible "default" sampleConfig a emptyWorld
  = (Returned h, emptyWorld)
  ∧ internalConfig h = sampleConfig
  ∧ adapter h = a.
Proof.
  intros a h.
  assert (buildRegisteredDatastoreInstance everyAdapterCompatible "default" sampleConfig a
            emptyWorld = (Returned h, emptyWorld)) as Hb by (vm_compute; reflexivity).
  split; [exact Hb|].
  pose proof (build_returns_a_refused_or_a_probed_handle everyAdapterCompatible "default"
                sampleConfig a emptyWorld h emptyWorld Hb) as (Hcfg & Ha & _).
  split; [exact Hcfg | exact Ha].
Defined.

(** X5: the build calls no helper and no callback, touches no call-options
    record and starts no Deferred.  The only object it makes is the
    terminal error: one new object when it returns a handle that carries
    one, none when it returns a handle without or throws. *)
Theorem build_has_no_outside_effect
    (checkAdapterCompatibility : string → value → option string)
    (name : string) (cfg : value) (a : value) (w : world) :
  let '(r, w') := buildRegisteredDatastoreInstance checkAdapterCompatibility name cfg a w in
  trace w' = trace w
  ∧ heap w' = heap w
  ∧ begun w' = begun w
  ∧ next w' = match r with
              | Returned h =>
                match genericDoesNotSupportDatastoreMethodsError h with
                | Some _ => S (next w)
                | None => next w
                end
              | Threw _ => next w
              end.
Proof.
  destruct (build_verdict checkAdapterCompatibility name cfg a) as [v [Hb _]]. rewrite Hb.
  destruct v; simpl; done.
Qed.

(** ** What a method call does *)

(** X6: a method called with a callback returns nothing and does exactly
    one thing to the outside, chosen in this order: with a terminal error
    on the handle it calls back with it; else, unless the capability it
    needs is true, it calls back with a new E_NOT_SUPPORTED error that
    carries the method's own message; else it calls its helper with the
    record it has just stored.  No Deferred is started and no other record
    is touched. *)
Theorem call_with_callback_does_one_thing
    (m : method) (self : rdi) (arg : value) (cb : callback)
    (more : option dict) (w : world) :
  let '(r, w') := call m self arg (Some cb) more w in
  r = None
  ∧ heap w' = <[next w := callOptions m self arg more]> (heap w)
  ∧ begun w' = begun w
  ∧ trace w' = trace w ++ [
      match genericDoesNotSupportDatastoreMethodsError self with
      | Some e => CallDone cb e
      | None =>
        match tier m self with
        | Some true => CallHelper (helperOf m) (next w) (callOptions m self arg more) cb
        | _ => CallDone cb {| oid := S (next w); code := Some "E_NOT_SUPPORTED";
                              message := notImplementedMsg m |}
        end
      end].
Proof.
  rewrite call_with_callback.
  destruct (genericDoesNotSupportDatastoreMethodsError self) as [e|] eqn:He.
  { by rewrite (handleExec_terminal _ _ _ _ e). }
  destruct (tier m self) as [[]|] eqn:Ht.
  - rewrite handleExec_delegates by done. cbn [snd heap begun trace assembledWorld next].
    by rewrite lookup_insert_eq.
  - by rewrite handleExec_unsupported by (done || congruence).
  - by rewrite handleExec_unsupported by (done || congruence).
Qed.

(** X7: a capability error is made anew at each call.  Two calls that are
    refused for a missing layer call back with two different error
    objects, each with code E_NOT_SUPPORTED and a message that names the
    layer and the method. *)
Theorem capability_errors_are_new_objects
    (self : rdi) (m1 m2 : method) (arg1 arg2 : value) (cb1 cb2 : callback)
    (more1 more2 : option dict) (w : world) :
  genericDoesNotSupportDatastoreMethodsError self = None →
  tier m1 self ≠ Some true →
  tier m2 self ≠ Some true →
  ∃ e1 e2,
    let w1 := (call m1 self arg1 (Some cb1) more1 w).2 in
    trace w1 = trace w ++ [CallDone cb1 e1]
    ∧ trace (call m2 self arg2 (Some cb2) more2 w1).2 = trace w1 ++ [CallDone cb2 e2]
    ∧ oid e1 ≠ oid e2
    ∧ code e1 = Some "E_NOT_SUPPORTED"
    ∧ code e2 = Some "E_NOT_SUPPORTED"
    ∧ mentions (message e1) (dq +:+ layerName m1 +:+ dq)
    ∧ mentions (message e1) ("`." +:+ methodName m1 +:+ "()`")
    ∧ mentions (message e2) (dq +:+ layerName m2 +:+ dq)
    ∧ mentions (message e2) ("`." +:+ methodName m2 +:+ "()`").
Proof.
  intros He Ht1 Ht2. eexists _, _. cbn zeta.
  rewrite !call_with_callback. cbn [snd].
  rewrite !handleExec_unsupported by done.
  cbn [snd trace next assembledWorld oid code message].
  split; [reflexivity|]. split; [reflexivity|].
  split; [simpl; lia|]. split; [done|]. split; [done|].
  destruct (notImplementedMsg_mentions m1), (notImplementedMsg_mentions m2). done.
Qed.

Lemma capability_errors_are_new_objects_witness :
  let cb := Callback "cb" in
  genericDoesNotSupportDatastoreMethodsError connectableOnly = None
  ∧ tier SendStatement connectableOnly ≠ Some true
  ∧ tier Transaction connectableOnly ≠ Some true
  ∧ ∃ e1 e2,
      let w1 := (call SendStatement connectableOnly (VDict ∅) (Some cb) None emptyWorld).2 in
      trace w1 = trace emptyWorld ++ [CallDone cb e1]
      ∧ trace (call Transaction connectableOnly (VFun "during") (Some cb) None w1).2
        = trace w1 ++ [CallDone cb e2]
      ∧ oid e1 ≠ oid e2
      ∧ code e1 = Some "E_NOT_SUPPORTED"
      ∧ code e2 = Some "E_NOT_SUPPORTED"
      ∧ mentions (message e1) (dq +:+ layerName SendStatement +:+ dq)
      ∧ mentions (message e1) ("`." +:+ methodName SendStatement +:+ "()`")
      ∧ mentions (message e2) (dq +:+ layerName Transaction +:+ dq)
      ∧ mentions (message e2) ("`." +:+ methodName Transaction +:+ "()`").
Proof.
  intros cb.
  assert (tier SendStatement connectableOnly ≠ Some true) as H1 by (simpl; discriminate).
  assert (tier Transaction connectableOnly ≠ Some true) as H2 by (simpl; discriminate).
  split; [reflexivity|]. split; [exact H1|]. split; [exact H2|].
  exact (capability_errors_are_new_objects connectableOnly SendStatement Transaction
           (VDict ∅) (VFun "during") cb cb None None emptyWorld eq_refl H1 H2).
Defined.

(** ** Configuring a call *)

(** X8: a value given through a setter wins over the value [more] gave for
    the same field, and over the one the method assembled.  After a call
    without callback, a setter call and the execution of the Deferred, the
    helper receives the merged record with the setter's value in that
    field and every other field unchanged. *)
Theorem setter_wins_over_more
    (m : method) (self : rdi) (arg : value) (more : option dict) (w : world)
    (field : string) (v : value) (cb : callback) :
  field ∈ setters m →
  genericDoesNotSupportDatastoreMethodsError self = None →
  tier m self = Some true →
  S (next w) ∉ begun w →
  ∃ d w1 w2 options,
    call m self arg None more w = (Some d, w1)
    ∧ callMethod d field v w1 = (Returned (d_id d), w2)
    ∧ trace (exec d cb w2).2 = trace w ++ [CallHelper (helperOf m) (next w) options cb]
    ∧ options !! field = Some v
    ∧ ∀ k, k ≠ field → options !! k = callOptions m self arg more !! k.
Proof.
  intros Hfield He Ht Hfresh. rewrite call_for_deferred.
  eexists _, _, _, (<[field := v]> (callOptions m self arg more)).
  split; [reflexivity|]. rewrite (callMethod_setter m) by done.
  split; [reflexivity|]. split.
  - rewrite exec_not_begun by done. cbn [d_handleExec d_id heap trace begun next].
    rewrite handleExec_delegates by done. cbn [snd trace heap].
    by rewrite lookup_alter_eq, lookup_insert_eq.
  - split; [apply lookup_insert_eq|]. intros k Hk. by apply lookup_insert_ne.
Qed.

Lemma setter_wins_over_more_witness :
  let more : dict := {[ "meta" := VStr "from more" ]} in
  "meta" ∈ setters Transaction
  ∧ genericDoesNotSupportDatastoreMethodsError fullyCapable = None
  ∧ tier Transaction fullyCapable = Some true
  ∧ (S (next emptyWorld) ∉ begun emptyWorld)
  ∧ ∃ d w1 w2 options,
      call Transaction fullyCapable (VFun "during") None (Some more) emptyWorld = (Some d, w1)
      ∧ callMethod d "meta" (VStr "from setter") w1 = (Returned (d_id d), w2)
      ∧ trace (exec d (Callback "cb") w2).2
        = trace emptyWorld ++ [CallHelper (helperOf Transaction) (next emptyWorld) options
                                 (Callback "cb")]
      ∧ options !! "meta" = Some (VStr "from setter")
      ∧ ∀ k, k ≠ "meta" →
          options !! k
          = (callOptions Transaction fullyCapable (VFun "during") (Some more)) !! k.
Proof.
  intros more.
  assert ("meta" ∈ setters Transaction) as Hfield by (simpl; apply list_elem_of_here).
  assert (S (next emptyWorld) ∉ begun emptyWorld) as Hfresh by (simpl; apply not_elem_of_empty).
  split; [exact Hfield|]. split; [reflexivity|]. split; [reflexivity|].
  split; [exact Hfresh|].
  exact (setter_wins_over_more Transaction fullyCapable (VFun "during") (Some more)
           emptyWorld "meta" (VStr "from setter") (Callback "cb") Hfield eq_refl eq_refl Hfresh).
Defined.

(** X9: setters compose as assignments do.  On the Deferred of a call,
    setting a field twice leaves the world as setting it once to the last
    value does; setting two different fields leaves the same world in
    either order. *)
Theorem setters_compose
    (m : method) (self : rdi) (arg : value) (more : option dict) (w0 w0' : world)
    (d : deferred) (f1 f2 : string) (v1 v2 : value) (w : world) :
  call m self arg None more w0 = (Some d, w0') →
  f1 ∈ setters m →
  f2 ∈ setters m →
  let both := (callMethod d f2 v2 (callMethod d f1 v1 w).2).2 in
  (f1 = f2 → both = (callMethod d f2 v2 w).2)
  ∧ (f1 ≠ f2 → both = (callMethod d f1 v1 (callMethod d f2 v2 w).2).2).
Proof.
  rewrite call_for_deferred. intros [= <- _] Hf1 Hf2 both. subst both.
  rewrite !(callMethod_setter m) by done. cbn [snd next heap begun trace].
  rewrite !alter_alter_eq. split.
  - intros ->. f_equal. apply alter_ext. intros o _. simpl. apply insert_insert_eq.
  - intros Hne. f_equal. apply alter_ext. intros o _. simpl.
    by apply insert_insert_ne.
Qed.

Lemma setters_compose_witness :
  let d := {| d_id := 1;
              d_handleExec := handleExec SendStatement fullyCapable 0;
              d_customMethods := customMethodsOf SendStatement 0 |} in
  let w1 := World 2 {[ 0 := callOptions SendStatement fullyCapable (VDict ∅) None ]} ∅ [] in
  call SendStatement fullyCapable (VDict ∅) None None emptyWorld = (Some d, w1)
  ∧ "meta" ∈ setters SendStatement
  ∧ "usingConnection" ∈ setters SendStatement
  ∧ "meta" ≠ "usingConnection"
  ∧ (callMethod d "usingConnection" (VStr "conn") (callMethod d "meta" (VNum 1) w1).2).2
    = (callMethod d "meta" (VNum 1) (callMethod d "usingConnection" (VStr "conn") w1).2).2.
Proof.
  intros d w1.
  assert (call SendStatement fullyCapable (VDict ∅) None None emptyWorld = (Some d, w1))
    as Hcall by (apply call_for_deferred).
  assert ("meta" ∈ setters SendStatement) as H1 by (simpl; apply list_elem_of_here).
  assert ("usingConnection" ∈ setters SendStatement) as H2
    by (simpl; apply list_elem_of_further, list_elem_of_here).
  assert ("meta" ≠ "usingConnection") as Hne by discriminate.
  split; [exact Hcall|]. split; [exact H1|]. split; [exact H2|]. split; [exact Hne|].
  exact (proj2 (setters_compose SendStatement fullyCapable (VDict ∅) None emptyWorld w1 d
                  "meta" "usingConnection" (VNum 1) (VStr "conn") w1 Hcall H1 H2) Hne).
Defined.

(** X10: calls do not share their configuration.  A setter called on the
    Deferred of a later call writes the record of that call and leaves the
    record of an earlier call as it was; the two Deferreds and the two
    records are different objects. *)
Theorem setters_do_not_cross_calls
    (m1 m2 : method) (self1 self2 : rdi) (arg1 arg2 : value)
    (more1 more2 : option dict) (w w1 w2 : world) (d1 d2 : deferred)
    (field : string) (v : value) :
  call m1 self1 arg1 None more1 w = (Some d1, w1) →
  call m2 self2 arg2 None more2 w1 = (Some d2, w2) →
  field ∈ setters m2 →
  let w3 := (callMethod d2 field v w2).2 in
  d_id d1 ≠ d_id d2
  ∧ next w ≠ next w1
  ∧ heap w3 !! next w = Some (callOptions m1 self1 arg1 more1)
  ∧ heap w3 !! next w1 = Some (<[field := v]> (callOptions m2 self2 arg2 more2)).
Proof.
  rewrite !call_for_deferred. intros [= <- <-] [= <- <-] Hfield w3. subst w3.
  rewrite (callMethod_setter m2) by done. cbn [snd heap next d_id].
  split; [lia|]. split; [lia|]. split.
  - rewrite lookup_alter_ne, lookup_insert_ne by lia. apply lookup_insert_eq.
  - by rewrite lookup_alter_eq, lookup_insert_eq.
Qed.

Lemma setters_do_not_cross_calls_witness :
  let d1 := {| d_id := 1;
               d_handleExec := handleExec LeaseConnection fullyCapable 0;
               d_customMethods := customMethodsOf LeaseConnection 0 |} in
  let w1 := World 2 {[ 0 := callOptions LeaseConnection fullyCapable (VFun "a") None ]} ∅ [] in
  let d2 := {| d_id := 3;
               d_handleExec := handleExec LeaseConnection fullyCapable 2;
               d_customMethods := customMethodsOf LeaseConnection 2 |} in
  let w2 := World 4 (<[ 2 := callOptions LeaseConnection fullyCapable (VFun "b") None ]>
                       {[ 0 := callOptions LeaseConnection fullyCapable (VFun "a") None ]})
                  ∅ [] in
  call LeaseConnection fullyCapable (VFun "a") None None emptyWorld = (Some d1, w1)
  ∧ call LeaseConnection fullyCapable (VFun "b") None None w1 = (Some d2, w2)
  ∧ "meta" ∈ setters LeaseConnection
  ∧ heap (callMethod d2 "meta" (VNum 5) w2).2 !! 0
    = Some (callOptions LeaseConnection fullyCapable (VFun "a") None).
Proof.
  intros d1 w1 d2 w2.
  assert (call LeaseConnection fullyCapable (VFun "a") None None emptyWorld = (Some d1, w1))
    as H1 by (apply call_for_deferred).
  assert (call LeaseConnection fullyCapable (VFun "b") None None w1 = (Some d2, w2))
    as H2 by (apply call_for_deferred).
  assert ("meta" ∈ setters LeaseConnection) as Hf by (simpl; apply list_elem_of_here).
  split; [exact H1|]. split; [exact H2|]. split; [exact Hf|].
  exact (proj1 (proj2 (proj2 (setters_do_not_cross_calls LeaseConnection LeaseConnection
                  fullyCapable fullyCapable (VFun "a") (VFun "b") None None
                  emptyWorld w1 w2 d1 d2 "meta" (VNum 5) H1 H2 Hf)))).
Defined.

Lemma assembled_fields (m : method) (self : rdi) (arg : value) :
  assembled m self arg !! "datastoreName" = Some (VStr (datastoreName self))
  ∧ assembled m self arg !! "adapter" = Some (adapter self)
  ∧ assembled m self arg !! primaryField m = Some arg
  ∧ assembled m self arg !! "meta" = Some VUndefined
  ∧ ∀ k, is_Some (assembled m self arg !! k) ↔ k ∈ fields m.
Proof.
  split; [by destruct m|]. split; [by destruct m|].
  split; [by destruct m|]. split; [by destruct m|].
  intros k. unfold assembled, fields. split.
  - intros Hk. destruct m; cbn [primaryField] in *;
      repeat (apply lookup_insert_is_Some in Hk as [<-|[_ Hk]];
              [by repeat constructor|]);
      rewrite lookup_empty in Hk; by destruct Hk.
  - intros Hk. destruct m; cbn [primaryField] in *;
      repeat (apply elem_of_cons in Hk as [->|Hk];
              [by repeat (rewrite lookup_insert_ne by discriminate);
                  rewrite lookup_insert_eq|]);
      by apply elem_of_nil in Hk.
Qed.

(** X11: whatever [more] holds, the record of a call has every field the
    method declares: [datastoreName], [adapter], the field of the primary
    argument and [meta], and [usingConnection] for the two query methods.
    A field that [more] does not name holds what the method put there: the
    datastore name and the adapter of the handle, the primary argument,
    and undefined for [meta]. *)
Theorem call_record_has_its_fields
    (m : method) (self : rdi) (arg : value) (cb : option callback)
    (more : option dict) (w : world) :
  ∃ o,
    heap (call m self arg cb more w).2 !! next w = Some o
    ∧ (∀ k, k ∈ fields m → is_Some (o !! k))
    ∧ (∀ k, (more ≫= (λ mo : dict, mo !! k)) = None →
         o !! k = assembled m self arg !! k)
    ∧ assembled m self arg !! "datastoreName" = Some (VStr (datastoreName self))
    ∧ assembled m self arg !! "adapter" = Some (adapter self)
    ∧ assembled m self arg !! primaryField m = Some arg
    ∧ assembled m self arg !! "meta" = Some VUndefined.
Proof.
  exists (callOptions m self arg more).
  pose proof (call_allocates m self arg cb more w) as Hheap. cbn zeta in Hheap.
  rewrite Hheap, lookup_insert_eq.
  destruct (assembled_fields m self arg) as (Hn & Ha & Hp & Hm & Hdom).
  split; [reflexivity|]. split; [|split; [|done]].
  - intros k Hk. apply Hdom in Hk. destruct more as [mo|]; [|done].
    unfold callOptions, lodash.extend. apply lookup_union_is_Some. by right.
  - intros k Hk. destruct more as [mo|]; [|done].
    unfold callOptions, lodash.extend. simpl in Hk. by apply lookup_union_r.
Qed.

(** X12: the Deferred of [leaseConnection] and of [transaction] has no
    [usingConnection] setter: calling it throws, and neither the record of
    the call nor anything else changes. *)
Theorem usingConnection_is_for_queries_only
    (m : method) (self : rdi) (arg : value) (more : option dict) (w w1 : world)
    (d : deferred) (v : value) (w2 : world) :
  m = LeaseConnection ∨ m = Transaction →
  call m self arg None more w = (Some d, w1) →
  callMethod d "usingConnection" v w2 = (Threw TypeError, w2).
Proof.
  intros Hm. rewrite call_for_deferred. intros [= <- _].
  destruct Hm as [-> | ->]; reflexivity.
Qed.

Lemma usingConnection_is_for_queries_only_witness :
  let d := {| d_id := 1;
              d_handleExec := handleExec Transaction fullyCapable 0;
              d_customMethods := customMethodsOf Transaction 0 |} in
  let w1 := World 2 {[ 0 := callOptions Transaction fullyCapable (VFun "during") None ]} ∅ [] in
  (Transaction = LeaseConnection ∨ Transaction = Transaction)
  ∧ call Transaction fullyCapable (VFun "during") None None emptyWorld = (Some d, w1)
  ∧ callMethod d "usingConnection" (VStr "conn") w1 = (Threw TypeError, w1).
Proof.
  intros d w1.
  assert (call Transaction fullyCapable (VFun "during") None None emptyWorld = (Some d, w1))
    as Hcall by (apply call_for_deferred).
  split; [by right|]. split; [exact Hcall|].
  exact (usingConnection_is_for_queries_only Transaction fullyCapable (VFun "during") None
           emptyWorld w1 d (VStr "conn") w1 (or_intror eq_refl) Hcall).
Defined.

(** ** The two ways to finish a call *)

(** X13: passing a callback and executing the Deferred come to the same.
    From the same world, a call with callback [cb] and a call without
    callback followed at once by [.exec(cb)] add one event each, and the
    two events are the same call: the same helper with the same record, or
    the same callback with an error of the same code and message (the very
    same object when it is the terminal error). *)
Theorem callback_and_exec_agree
    (m : method) (self : rdi) (arg : value) (more : option dict) (cb : callback)
    (w w1 : world) (d : deferred) :
  S (next w) ∉ begun w →
  call m self arg None more w = (Some d, w1) →
  ∃ ev1 ev2,
    trace (call m self arg (Some cb) more w).2 = trace w ++ [ev1]
    ∧ trace (exec d cb w1).2 = trace w ++ [ev2]
    ∧ sameCall ev1 ev2
    ∧ (is_Some (genericDoesNotSupportDatastoreMethodsError self) → ev1 = ev2).
Proof.
  intros Hfresh. rewrite call_for_deferred. intros [= <- <-].
  rewrite call_with_callback, exec_not_begun by done.
  cbn [snd d_handleExec d_id heap trace begun next].
  destruct (genericDoesNotSupportDatastoreMethodsError self) as [e|] eqn:He.
  { rewrite !(handleExec_terminal _ _ _ _ e) by done. eexists _, _.
    split; [reflexivity|]. split; [reflexivity|]. done. }
  destruct (decide (tier m self = Some true)) as [Ht|Ht].
  - rewrite !handleExec_delegates by done. eexists _, _.
    split; [reflexivity|]. split; [reflexivity|].
    cbn [heap assembledWorld]. split; [done|]. by intros [? [=]].
  - rewrite !handleExec_unsupported by done. eexists _, _.
    split; [reflexivity|]. split; [reflexivity|].
    split; [done|]. by intros [? [=]].
Qed.

Lemma callback_and_exec_agree_witness :
  let d := {| d_id := 1;
              d_handleExec := handleExec SendNativeQuery connectableOnly 0;
              d_customMethods := customMethodsOf SendNativeQuery 0 |} in
  let w1 := World 2 {[ 0 := callOptions SendNativeQuery connectableOnly (VStr "SELECT 1") None ]}
                  ∅ [] in
  let cb := Callback "cb" in
  (S (next emptyWorld) ∉ begun emptyWorld)
  ∧ call SendNativeQuery connectableOnly (VStr "SELECT 1") None None emptyWorld = (Some d, w1)
  ∧ ∃ ev1 ev2,
      trace (call SendNativeQuery connectableOnly (VStr "SELECT 1") (Some cb) None emptyWorld).2
      = trace emptyWorld ++ [ev1]
      ∧ trace (exec d cb w1).2 = trace emptyWorld ++ [ev2]
      ∧ sameCall ev1 ev2
      ∧ (is_Some (genericDoesNotSupportDatastoreMethodsError connectableOnly) → ev1 = ev2).
Proof.
  intros d w1 cb.
  assert (S (next emptyWorld) ∉ begun emptyWorld) as Hfresh by (simpl; apply not_elem_of_empty).
  assert (call SendNativeQuery connectableOnly (VStr "SELECT 1") None None emptyWorld
          = (Some d, w1)) as Hcall by (apply call_for_deferred).
  split; [exact Hfresh|]. split; [exact Hcall|].
  exact (callback_and_exec_agree SendNativeQuery connectableOnly (VStr "SELECT 1") None cb
           emptyWorld w1 d Hfresh Hcall).
Defined.

(** ** A driver with a gap *)

(** X14: the layers build on each other from the bottom.  A driver that
    lacks one of the four connection methods implements no layer at all,
    whatever else it has; one that lacks a query method is neither
    queryable nor transactional. *)
Theorem missing_method_closes_the_layers_above (names : list string) (x : string) :
  x ∉ names →
  (x ∈ connectableNames → interfaceLayers names = (false, false, false))
  ∧ (x ∈ queryableNames → ∃ c, interfaceLayers names = (c, false, false)).
Proof.
  intros Hx.
  destruct (interfaceLayers names) as [[c q] t] eqn:Hl.
  pose proof (interfaceLayers_cumulative names c q t Hl) as [Htq Hqc].
  apply interfaceLayers_spec in Hl as (Hc & Hq & _).
  split.
  - intros Hin.
    assert (c = false) as ->.
    { destruct c; [|done]. exfalso. apply Hx. by apply Hc. }
    assert (q = false) as -> by (destruct q; [discriminate (Hqc eq_refl)|done]).
    assert (t = false) as -> by (destruct t; [discriminate (Htq eq_refl)|done]).
    done.
  - intros Hin. exists c.
    assert (q = false) as ->.
    { destruct q; [|done]. exfalso. apply Hx. by apply Hq. }
    assert (t = false) as -> by (destruct t; [discriminate (Htq eq_refl)|done]).
    done.
Qed.

Lemma missing_method_closes_the_layers_above_witness :
  let names := ["createManager"; "destroyManager"; "releaseConnection";
                "sendNativeQuery"; "compileStatement"; "parseNativeQueryResult";
                "parseNativeQueryError"; "beginTransaction"; "commitTransaction";
                "rollbackTransaction"] in
  ("getConnection" ∉ names)
  ∧ "getConnection" ∈ connectableNames
  ∧ interfaceLayers names = (false, false, false).
Proof.
  intros names.
  assert ("getConnection" ∉ names) as Hx.
  { intros Hin. repeat (apply elem_of_cons in Hin as [Heq|Hin]; [discriminate Heq|]).
    by apply elem_of_nil in Hin. }
  assert ("getConnection" ∈ connectableNames) as Hin by (repeat constructor).
  split; [exact Hx|]. split; [exact Hin|].
  exact (proj1 (missing_method_closes_the_layers_above names "getConnection" Hx) Hin).
Defined.
